(** * SMQTK-Core [smqtk_core.configuration]: configuration dictionaries

    A shallow embedding of [src/smqtk_core/configuration.py] and of the helper
    classes [T1] and [T2] of [src/tests/test_configuration.py], together with
    the properties of the configuration convention that the specification
    states about them.

    Python objects are embedded as follows.
    - JSON-compatible values and the instances that may stand in their place
      are the inductive type [value]; a dictionary with string keys is a
      [gmap string value], whose equality is extensional like that of Python
      dictionaries.
    - Exceptions are the inductive type [error]; a computation that may raise
      lives in the monad [M], which also threads the interpreter state [St]:
      the counter that gives every new instance its identity and the trace of
      the [from_config] and constructor calls made so far.
    - A dictionary that a callee mutates in place is threaded through the
      callee: methods that receive a configuration dictionary return its final
      contents next to their result, and the caller rebinds its variable. *)

From stdpp Require Import gmap strings list fin_maps.

Set Warnings "-register-all,-clear-no-such-hyp".
Set Default Proof Using "Type".

Open Scope Z_scope.
Open Scope string_scope.

(** ** Values *)

(** [VFloat m e] is the float literal [m * 10^e]; [VInst oid cid attrs] is an
    instance of the class numbered [cid], with identity [oid] and attribute
    dictionary [attrs]. *)
Inductive value :=
| VNone
| VBool (b : bool)
| VInt (z : Z)
| VFloat (m e : Z)
| VStr (s : string)
| VList (l : list value)
| VDict (d : gmap string value)
| VInst (oid : nat) (cid : nat) (attrs : gmap string value).

Abbreviation dict := (gmap string value).

(** Python truth value, as tested by [if merge_default:]. *)
Definition truthy (v : value) : bool :=
  match v with
  | VNone => false
  | VBool b => b
  | VInt z => negb (Z.eqb z 0)
  | VFloat m _ => negb (Z.eqb m 0)
  | VStr s => negb (String.eqb s "")
  | VList l => match l with [] => false | _ => true end
  | VDict d => negb (bool_decide (d = ∅))
  | VInst _ _ _ => true
  end.

(** The numeric reading of a value: [Some (m, e)] stands for [m * 10^e]. *)
Definition as_number (v : value) : option (Z * Z) :=
  match v with
  | VBool b => Some (if b then 1 else 0, 0)
  | VInt z => Some (z, 0)
  | VFloat m e => Some (m, e)
  | _ => None
  end.

Definition number_eqb (x y : Z * Z) : bool :=
  let lo := Z.min x.2 y.2 in
  Z.eqb (x.1 * 10 ^ (x.2 - lo)) (y.1 * 10 ^ (y.2 - lo)).

(** Python's [==] on values.  Numbers compare by value across [bool], [int]
    and [float]; strings, lists and dictionaries compare structurally; the
    classes of this repository define no [__eq__], so instances compare by
    identity. *)
Fixpoint py_eq (a b : value) {struct a} : bool :=
  match a, b with
  | VNone, VNone => true
  | VStr s, VStr t => String.eqb s t
  | VList la, VList lb =>
      (fix go (xs ys : list value) {struct xs} : bool :=
         match xs, ys with
         | [], [] => true
         | x :: xs', y :: ys' => py_eq x y && go xs' ys'
         | _, _ => false
         end) la lb
  | VDict da, VDict db =>
      bool_decide (dom da = dom db) &&
      map_fold (λ k va acc,
                 acc && match db !! k with
                        | Some vb => py_eq va vb
                        | None => false
                        end) true da
  | VInst i _ _, VInst j _ _ => Nat.eqb i j
  | _, _ =>
      match as_number a, as_number b with
      | Some x, Some y => number_eqb x y
      | _, _ => false
      end
  end.

(** ** Exceptions *)

(** What an error message prints of an arbitrary object. *)
Inductive obj_repr :=
| Repr_class (module name : string)
| Repr_instance (v : value).

(** The exceptions of the module, one constructor for each [raise] and
    [assert], carrying what the message is formatted from; the lists of
    options that the messages print are kept as sets.  The last three are
    raised by the interpreter. *)
Inductive error :=
(* ValueError("Configuration dictionary given does not have an implementation
   type specification.") *)
| Missing_type
(* ValueError("No implementation type specified. Options: %s") *)
| Unset_type (options : gset string)
(* ValueError("Implementation type specified as '%s', but no configuration
   block was present for that type. Available configuration block options: %s") *)
| No_config_block (conf_type_name : value) (options : gset string)
(* ValueError("Implementation type specified as '%s', but no plugin
   implementations are available for that type. Available implementation
   types options: %s") *)
| Unknown_implementation (conf_type_name : string) (options : gset string)
(* ValueError("c_inst must be an instance and its type must subclass from
   Configurable. Was given '{}'.") *)
| Not_a_configurable_instance
(* AssertionError("Encountered invalid Configurable type: '{}' (type={})") *)
| Assert_invalid_configurable_type (elem : obj_repr)
(* AssertionError("Configured class type '%s' does not descend from
   `Configurable`.") *)
| Assert_not_configurable (name : string)
| TypeError (msg : string)
| KeyError (key : string)
| AttributeError (attr : string).

Inductive outcome (A : Type) :=
| Return (a : A)
| Raise (e : error).
Arguments Return {A} a.
Arguments Raise {A} e.

#[global] Instance outcome_ret : MRet outcome := @Return.
#[global] Instance outcome_bind : MBind outcome := λ A B k o,
  match o with
  | Return a => k a
  | Raise e => Raise e
  end.

(** ** Interpreter state and the monad of computations *)

Inductive event :=
| Call_from_config (cls_key : string) (config : value) (args : list value)
| Call_init (cls_key : string) (kwargs : dict).

Record St := mkSt {
  next_oid : nat;
  trace : list event
}.

Definition M (A : Type) : Type := St → St * outcome A.

Definition ret {A} (a : A) : M A := λ st, (st, Return a).
Definition raise {A} (e : error) : M A := λ st, (st, Raise e).
Definition bind {A B} (m : M A) (k : A → M B) : M B :=
  λ st, match m st with
        | (st', Return a) => k a st'
        | (st', Raise e) => (st', Raise e)
        end.
Definition lift {A} (o : outcome A) : M A := λ st, (st, o).

#[global] Instance M_ret : MRet M := @ret.
#[global] Instance M_bind : MBind M := λ A B k m, bind m k.

Definition log (ev : event) : M unit :=
  λ st, (mkSt (next_oid st) (trace st ++ [ev]), Return tt).

(** [object.__new__]: the identity of the next instance. *)
Definition fresh_oid : M nat :=
  λ st, (mkSt (S (next_oid st)) (trace st), Return (next_oid st)).

Definition assert (b : bool) (e : error) : M unit :=
  if b then ret tt else raise e.

(** [d[k]] on a dictionary. *)
Definition getitem (d : dict) (k : string) : outcome value :=
  match d !! k with
  | Some v => Return v
  | None => Raise (KeyError k)
  end.

(** [o.k] on an instance. *)
Definition getattr (o : value) (k : string) : outcome value :=
  match o with
  | VInst _ _ attrs =>
      match attrs !! k with
      | Some v => Return v
      | None => Raise (AttributeError k)
      end
  | _ => Raise (AttributeError k)
  end.

(** A value used where a mapping is required ([**v], iteration over keys,
    item assignment). *)
Definition as_mapping (v : value) : outcome dict :=
  match v with
  | VDict d => Return d
  | _ => Raise (TypeError "mapping required")
  end.

(** ** Callables and classes *)

(** [inspect.Parameter.kind]. *)
Inductive kind :=
| POSITIONAL_ONLY
| POSITIONAL_OR_KEYWORD
| VAR_POSITIONAL
| KEYWORD_ONLY
| VAR_KEYWORD.

#[global] Instance kind_eq_dec : EqDecision kind.
Proof. solve_decision. Defined.

(** [inspect.Parameter]; [p_default = None] is [Parameter.empty]. *)
Record Param := mkParam {
  p_name : string;
  p_kind : kind;
  p_default : option value
}.

(** [inspect.signature(func).parameters]: the parameters in declaration
    order, the receiver of a method included. *)
Definition Signature := list Param.

(** The part of a class that the module reads directly.  [cls_init] is
    [Some sig] when the attribute [cls.__init__] is a Python function with
    signature [sig], and [None] when no constructor is defined and the
    attribute is [object]'s slot wrapper.  [cls_call kwargs] is the call
    [cls( **kwargs)]. *)
Record class_core := mkCore {
  cls_id : nat;
  cls_module : string;
  cls_name : string;
  cls_is_configurable : bool;
  cls_init : option Signature;
  cls_call : dict → M value
}.

(** A class with the three methods of the [Configurable] interface as
    attribute lookup resolves them on it (overridden or inherited).
    [from_config config args] receives the positional arguments that follow
    the configuration and returns the final contents of the dictionary it was
    handed together with the new instance. *)
Record class := mkClass {
  core :> class_core;
  get_default_config : outcome dict;
  from_config : value → list value → M (value * value);
  get_config : value → outcome value
}.

(** An arbitrary object handed to the helpers: a class, or an instance
    [self] of class [c]. *)
Inductive object :=
| Class (c : class)
| Instance (c : class) (self : value).

Definition isinstance_type (o : object) : bool :=
  match o with
  | Class _ => true
  | Instance _ _ => false
  end.

Definition repr (o : object) : obj_repr :=
  match o with
  | Class c => Repr_class (cls_module c) (cls_name c)
  | Instance _ self => Repr_instance self
  end.

(** ** [smqtk_core.configuration] *)

Definition keep_kinds : list kind :=
  [POSITIONAL_ONLY; POSITIONAL_OR_KEYWORD; KEYWORD_ONLY].

Definition _param_map_func (sig : Signature) : dict :=
  foldl (λ (pmap : dict) (param : Param),
           let k := p_name param in
           if String.eqb k "self" then pmap
           else if bool_decide (p_kind param ∈ keep_kinds) then
             let dflt := match p_default param with
                         | None => VNone
                         | Some dflt => dflt
                         end in
             <[k := dflt]> pmap
           else pmap)
        ∅ sig.

Definition _type_to_key (t : class_core) : string :=
  cls_module t ++ "." ++ cls_name t.

(** Modelled from the spec: [smqtk_core.dict.merge_dict], which is not among
    the sources.  The specification describes it as a utility that deep-merges
    two mappings, the second argument's keys taking precedence over the
    first's on conflict, recursing into nested mappings, without mutating
    either input.  [merge_value a b] is the value under a key present in both
    mappings. *)
Fixpoint merge_value (a b : value) {struct a} : value :=
  match a, b with
  | VDict da, VDict db =>
      VDict (union_with (λ x y, Some (merge_value x y)) da db)
  | _, _ => b
  end.

Definition merge_dict (a b : dict) : dict :=
  union_with (λ x y, Some (merge_value x y)) a b.

(** [cls( **kwargs)], recorded in the trace. *)
Definition construct (cls : class_core) (kwargs : dict) : M value :=
  log (Call_init (_type_to_key cls) kwargs);;
  cls_call cls kwargs.

Module Configurable.

Definition get_default_config (cls : class_core) : dict :=
  match cls_init cls with
  | Some sig => _param_map_func sig
  | None => ∅
  end.

(** [cls] enters through its core and through the [get_default_config] that
    attribute lookup resolves on it.  The positional arguments after
    [config_dict] bind to [merge_default]. *)
Definition from_config (cls : class_core) (cls_get_default_config : outcome dict)
    (config_dict : value) (args : list value) : M (value * value) :=
  merge_default ← match args with
                  | [] => mret true
                  | [m] => mret (truthy m)
                  | _ => raise (TypeError "too many positional arguments")
                  end;
  kwargs ← (if merge_default : bool then
              dflt ← lift cls_get_default_config;
              given ← lift (as_mapping config_dict);
              mret (merge_dict dflt given)
            else lift (as_mapping config_dict));
  inst ← construct cls kwargs;
  mret (config_dict, inst).

End Configurable.

(** A class that inherits [get_default_config] and [from_config]. *)
Definition inherit (cls : class_core) (get_config : value → outcome value) : class :=
  mkClass cls
    (Return (Configurable.get_default_config cls))
    (Configurable.from_config cls (Return (Configurable.get_default_config cls)))
    get_config.

(** *** The helper functions *)

(** The loop of [make_default_config], started from the dictionary [d]. *)
Fixpoint make_default_config_loop (d : dict) (configurable_iter : list object)
    : outcome dict :=
  match configurable_iter with
  | [] => Return d
  | cls :: rest =>
      match cls with
      | Class c =>
          if cls_is_configurable c then
            dflt ← get_default_config c;
            make_default_config_loop (<[_type_to_key c := VDict dflt]> d) rest
          else Raise (Assert_invalid_configurable_type (repr cls))
      | Instance _ _ => Raise (Assert_invalid_configurable_type (repr cls))
      end
  end.

Definition make_default_config (configurable_iter : list object) : outcome dict :=
  make_default_config_loop {[ "type" := VNone ]} configurable_iter.

Definition cls_conf_to_config_dict (cls : class_core) (conf : value) : dict :=
  let cls_key := _type_to_key cls in
  <[cls_key := conf]> {[ "type" := VStr cls_key ]}.

(** For a class [c_inst], [c_inst.__class__] is its metaclass, which is never
    reached: [isinstance(c_inst, type)] already decides. *)
Definition to_config_dict (c_inst : object) : outcome dict :=
  match c_inst with
  | Class _ => Raise Not_a_configurable_instance
  | Instance c_class self =>
      if negb (cls_is_configurable c_class) then Raise Not_a_configurable_instance
      else
        conf ← get_config c_class self;
        Return (cls_conf_to_config_dict c_class conf)
  end.

(** [dict(map(lambda t: (_type_to_key(t), t), type_iter))]: later pairs
    overwrite earlier ones. *)
Definition make_type_map (type_iter : list class) : gmap string class :=
  foldl (λ (type_map : gmap string class) (t : class),
           <[_type_to_key t := t]> type_map) ∅ type_iter.

Definition cls_conf_from_config_dict (config : dict) (type_iter : list class)
    : outcome (class * value) :=
  match config !! "type" with
  | None => Raise Missing_type
  | Some conf_type_name =>
      let type_map := make_type_map type_iter in
      let conf_type_options : gset string := dom config ∖ {[ "type" ]} in
      match conf_type_name with
      | VNone => Raise (Unset_type conf_type_options)
      | VList _ | VDict _ => Raise (TypeError "unhashable type")
      | VStr s =>
          if bool_decide (s ∉ conf_type_options) then
            Raise (No_config_block conf_type_name conf_type_options)
          else
            match type_map !! s with
            | None => Raise (Unknown_implementation s (dom type_map))
            | Some cls =>
                match config !! s with
                | Some conf => Return (cls, conf)
                | None => Raise (KeyError s)
                end
            end
      | _ => Raise (No_config_block conf_type_name conf_type_options)
      end
  end.

(** [cls.from_config(config, *args)], recorded in the trace. *)
Definition call_from_config (cls : class) (config : value) (args : list value)
    : M (value * value) :=
  log (Call_from_config (_type_to_key cls) config args);;
  from_config cls config args.

(** The sub-configuration handed to [from_config] is the very object stored in
    [config], so what the callee leaves in it is written back there. *)
Definition from_config_dict (config : dict) (type_iter : list class)
    (args : list value) : M (dict * value) :=
  '((cls, cls_conf) : class * value) ←
    lift (cls_conf_from_config_dict config type_iter);
  assert (cls_is_configurable cls) (Assert_not_configurable (cls_name cls));;
  '(cls_conf', inst) ← call_from_config cls cls_conf args;
  mret (<[_type_to_key cls := cls_conf']> config, inst).

(** The chain [inst -> inst2 -> inst4] of [configuration_test_helper]: export
    [c1], rebuild from it, export [c2], rebuild from that, export [c3].  Every
    configuration is reported as it stands when the comparisons are made,
    that is, after [from_config] has had it in hands. *)
Definition round_trip (X : class) (x : value) : M (value * value * value) :=
  c1 ← lift (get_config X x);
  '(c1, y) ← call_from_config X c1 [];
  c2 ← lift (get_config X y);
  '(c2, z) ← call_from_config X c2 [];
  c3 ← lift (get_config X z);
  mret (c1, c2, c3).

(** ** Calling a Python constructor *)

(** Binding of the keyword arguments [kwargs] to the parameters that follow
    the receiver; [locals] collects the bound names. *)
Fixpoint bind_keywords (params : list Param) (kwargs locals : dict)
    : outcome dict :=
  match params with
  | [] =>
      if bool_decide (kwargs = ∅) then Return locals
      else Raise (TypeError "unexpected keyword argument")
  | p :: rest =>
      match p_kind p with
      | VAR_POSITIONAL => bind_keywords rest kwargs (<[p_name p := VList []]> locals)
      | VAR_KEYWORD => bind_keywords rest ∅ (<[p_name p := VDict kwargs]> locals)
      | POSITIONAL_ONLY =>
          match p_default p with
          | Some v => bind_keywords rest kwargs (<[p_name p := v]> locals)
          | None => Raise (TypeError "missing required positional argument")
          end
      | POSITIONAL_OR_KEYWORD | KEYWORD_ONLY =>
          match kwargs !! p_name p, p_default p with
          | Some v, _ | None, Some v =>
              bind_keywords rest (delete (p_name p) kwargs) (<[p_name p := v]> locals)
          | None, None => Raise (TypeError "missing required argument")
          end
      end
  end.

(** [cls( **kwargs)] for a class numbered [cid] whose [__init__] has signature
    [sig] and stores the attributes [body locals] on the new instance. *)
Definition call_init (cid : nat) (sig : Signature) (body : dict → outcome dict)
    (kwargs : dict) : M value :=
  oid ← fresh_oid;
  locals ← lift (bind_keywords (tail sig) kwargs ∅);
  attrs ← lift (body locals);
  mret (VInst oid cid attrs).

(** ** The helper classes of [tests/test_configuration.py] *)

Module test_configuration.

Definition self_param : Param := mkParam "self" POSITIONAL_OR_KEYWORD None.

(** *** [class T1 (Configurable)] *)

Definition T1_init_sig : Signature :=
  [ self_param;
    mkParam "foo" POSITIONAL_OR_KEYWORD (Some (VInt 1));
    mkParam "bar" POSITIONAL_OR_KEYWORD (Some (VStr "baz")) ].

Definition T1_init (locals : dict) : outcome dict :=
  foo ← getitem locals "foo";
  bar ← getitem locals "bar";
  Return (<["bar" := bar]> (<["foo" := foo]> ∅)).

Definition T1_core : class_core :=
  mkCore 1 "tests.test_configuration" "T1" true
         (Some T1_init_sig) (call_init 1 T1_init_sig T1_init).

Definition T1_get_config (self : value) : outcome value :=
  foo ← getattr self "foo";
  bar ← getattr self "bar";
  Return (VDict (<["bar" := bar]> (<["foo" := foo]> ∅))).

Definition T1 : class := inherit T1_core T1_get_config.

(** The instance [T1()] that is the default of [T2]'s [child], made when
    the class statement of [T2] runs. *)
Definition T1_default_instance : value :=
  VInst 0 1 (<["bar" := VStr "baz"]> (<["foo" := VInt 1]> ∅)).

(** *** [class T2 (Configurable)] *)

Definition T2_init_sig : Signature :=
  [ self_param;
    mkParam "child" POSITIONAL_OR_KEYWORD (Some T1_default_instance);
    mkParam "alpha" POSITIONAL_OR_KEYWORD (Some (VFloat 1 (-4)));
    mkParam "beta" POSITIONAL_OR_KEYWORD (Some (VStr "default")) ].

Definition T2_init (locals : dict) : outcome dict :=
  child ← getitem locals "child";
  alpha ← getitem locals "alpha";
  beta ← getitem locals "beta";
  Return (<["beta" := beta]> (<["alpha" := alpha]> (<["child" := child]> ∅))).

Definition T2_core : class_core :=
  mkCore 2 "tests.test_configuration" "T2" true
         (Some T2_init_sig) (call_init 2 T2_init_sig T2_init).

(** Attribute lookup on [child], which is "supposed to be an instance of
    T1"; any other object has neither method. *)
Definition child_get_default_config (child : value) : outcome dict :=
  match child with
  | VInst _ cid _ =>
      if Nat.eqb cid (cls_id T1) then get_default_config T1
      else Raise (AttributeError "get_default_config")
  | _ => Raise (AttributeError "get_default_config")
  end.

Definition child_get_config (child : value) : outcome value :=
  match child with
  | VInst _ cid _ =>
      if Nat.eqb cid (cls_id T1) then get_config T1 child
      else Raise (AttributeError "get_config")
  | _ => Raise (AttributeError "get_config")
  end.

Definition T2_get_default_config : outcome dict :=
  let default := Configurable.get_default_config T2_core in
  child ← getitem default "child";
  child_default ← child_get_default_config child;
  Return (<["child" := VDict child_default]> default).

(** [config['child'] = ...] assigns into the caller's dictionary. *)
Definition T2_from_config (config : value) (args : list value)
    : M (value * value) :=
  merge_default ← match args with
                  | [] => mret (VBool true)
                  | [m] => mret m
                  | _ => raise (TypeError "too many positional arguments")
                  end;
  d ← lift (as_mapping config);
  child ← lift (getitem d "child");
  '(_, child_inst) ← call_from_config T1 child [];
  let config := VDict (<["child" := child_inst]> d) in
  Configurable.from_config T2_core T2_get_default_config config [merge_default].

Definition T2_get_config (self : value) : outcome value :=
  child ← getattr self "child";
  child_config ← child_get_config child;
  alpha ← getattr self "alpha";
  beta ← getattr self "beta";
  Return (VDict (<["beta" := beta]> (<["alpha" := alpha]>
                 (<["child" := child_config]> ∅)))).

Definition T2 : class :=
  mkClass T2_core T2_get_default_config T2_from_config T2_get_config.

Definition T_CLASS_SET : list class := [T1; T2].

(** *** Configurations used by the tests *)

Definition T1_block : value :=
  VDict (<["bar" := VStr "Some string value"]> (<["foo" := VInt 256]> ∅)).

Definition T2_block : value :=
  VDict (<["beta" := VStr "euclidean"]> (<["alpha" := VFloat 10 (-1)]>
         (<["child" := VDict (<["bar" := VStr "some other value"]>
                              (<["foo" := VInt (-1)]> ∅))]> ∅))).

(** The blocks of [test_cls_conf_from_config_dict], without a ["type"]. *)
Definition test_blocks : dict :=
  <["NotAnImpl" := VDict ∅]>
    (<["tests.test_configuration.T2" := T2_block]>
       (<["tests.test_configuration.T1" := T1_block]> ∅)).

Definition test_config (type : value) : dict := <["type" := type]> test_blocks.

(** *** Classes declared inside the test functions

    Each of them is called [T] and none implements [get_config]. *)

Definition abstract_call (kwargs : dict) : M value :=
  raise (TypeError "Can't instantiate abstract class").

Definition abstract_get_config (self : value) : outcome value :=
  Raise (TypeError "abstract method").

Definition local_class (cid : nat) (name : string) (init : option Signature)
    : class :=
  inherit (mkCore cid "tests.test_configuration" name true init abstract_call)
          abstract_get_config.

(** [def __init__(self, a, b, cat)] *)
Definition T_plain : class :=
  local_class 3 "T"
    (Some [ self_param;
            mkParam "a" POSITIONAL_OR_KEYWORD None;
            mkParam "b" POSITIONAL_OR_KEYWORD None;
            mkParam "cat" POSITIONAL_OR_KEYWORD None ]).

(** [def __init__(self, a, *, b=0)] *)
Definition T_kwonlys : class :=
  local_class 4 "T"
    (Some [ self_param;
            mkParam "a" POSITIONAL_OR_KEYWORD None;
            mkParam "b" KEYWORD_ONLY (Some (VInt 0)) ]).

(** [class NoInitExample (Configurable): pass] *)
Definition NoInitExample : class := local_class 5 "NoInitExample" None.

(** [def __init__(self, a, b, c=0, d='foobar', *args, **kwargs)] *)
Definition T_defaults_star_sig : Signature :=
  [ self_param;
    mkParam "a" POSITIONAL_OR_KEYWORD None;
    mkParam "b" POSITIONAL_OR_KEYWORD None;
    mkParam "c" POSITIONAL_OR_KEYWORD (Some (VInt 0));
    mkParam "d" POSITIONAL_OR_KEYWORD (Some (VStr "foobar"));
    mkParam "args" VAR_POSITIONAL None;
    mkParam "kwargs" VAR_KEYWORD None ].

Definition T_defaults_star : class := local_class 6 "T" (Some T_defaults_star_sig).

(** [class NotConfigurable (object)] of [test_from_config_dict_assertion_error];
    it has none of the three methods. *)
Definition NotConfigurable : class :=
  mkClass
    (mkCore 7 "tests.test_configuration" "NotConfigurable" false None
       (λ kwargs, call_init 7 [] (λ _, Return ∅) kwargs))
    (Raise (AttributeError "get_default_config"))
    (λ _ _, raise (AttributeError "from_config"))
    (λ _, Raise (AttributeError "get_config")).

(** The configuration and class set of
    [test_from_config_dict_assertion_error]. *)
Definition test_config_not_configurable : dict :=
  <["tests.test_configuration.NotConfigurable" := VDict ∅]>
    (<["tests.test_configuration.T2" := T2_block]>
       (<["tests.test_configuration.T1" := T1_block]>
          {[ "type" := VStr "tests.test_configuration.NotConfigurable" ]})).

Definition test_class_set : list class := T_CLASS_SET ++ [NotConfigurable].

(** *** [T2] written after the pattern of [from_config]'s docstring

    The docstring of [Configurable.from_config] prescribes, for an override,
    a shallow copy of the input first ("important to maintain idempotency"),
    then the optional merge of the defaults, then the conversions, then the
    call of the inherited method.  This is [T2.from_config] with its one
    conversion placed in that pattern: the assignment goes to the copy, and
    the caller's dictionary is returned as it came. *)
Definition T2_documented_from_config (config_dict : value) (args : list value)
    : M (value * value) :=
  merge_default ← match args with
                  | [] => mret (VBool true)
                  | [m] => mret m
                  | _ => raise (TypeError "too many positional arguments")
                  end;
  copy ← lift (as_mapping config_dict);
  copy ← (if truthy merge_default then
            dflt ← lift T2_get_default_config;
            mret (merge_dict dflt copy)
          else mret copy);
  child ← lift (getitem copy "child");
  '(_, child_inst) ← call_from_config T1 child [];
  let copy := <["child" := child_inst]> copy in
  '(_, inst) ← Configurable.from_config T2_core T2_get_default_config
                 (VDict copy) [merge_default];
  mret (config_dict, inst).

Definition T2_documented : class :=
  mkClass T2_core T2_get_default_config T2_documented_from_config T2_get_config.

(** An instance of [T2] whose [child] is an instance of [T1]. *)
Definition T2_instance (oid child_oid : nat) (foo bar alpha beta : value)
    : value :=
  VInst oid 2
    (<["beta" := beta]> (<["alpha" := alpha]>
     (<["child" := VInst child_oid 1 (<["bar" := bar]> (<["foo" := foo]> ∅))]>
      ∅))).

(** [T2(T1(foo=12, bar='OK'), 0.3, 'not default')], the instance [i3] of
    [test_to_config_dict], and the interpreter state after its creation. *)
Definition i3 : value :=
  T2_instance 2 1 (VInt 12) (VStr "OK") (VFloat 3 (-1)) (VStr "not default").

Definition st_i3 : St := mkSt 3 [].

(** A configuration of [T2] that gives only a part of the [child] block. *)
Definition partial_child_config : dict :=
  {[ "child" := VDict {[ "foo" := VInt 2 ]} ]}.

(** *** Instances and the configurations they export *)

Definition T1_instance (oid : nat) (foo bar : value) : value :=
  VInst oid 1 (<["bar" := bar]> (<["foo" := foo]> ∅)).

(** [{'foo': foo, 'bar': bar}] *)
Definition T1_config (foo bar : value) : value :=
  VDict (<["bar" := bar]> (<["foo" := foo]> ∅)).

(** [{'child': child, 'alpha': alpha, 'beta': beta}] *)
Definition T2_config (child alpha beta : value) : value :=
  VDict (<["beta" := beta]> (<["alpha" := alpha]> (<["child" := child]> ∅))).

(** The dictionary that [test_make_default_config] expects of
    [make_default_config(T_CLASS_SET)]. *)
Definition T_default_config : dict :=
  <["tests.test_configuration.T2" :=
      T2_config (T1_config (VInt 1) (VStr "baz")) (VFloat 1 (-4)) (VStr "default")]>
    (<["tests.test_configuration.T1" := T1_config (VInt 1) (VStr "baz")]>
       {[ "type" := VNone ]}).

(** [T2] with the two class methods as [Configurable] defines them. *)
Definition T2_without_overrides : class := inherit T2_core T2_get_config.

(** The interpreter state once the module is loaded: identity 0 is taken by
    the default [child]. *)
Definition st0 : St := mkSt 1 [].

End test_configuration.

(** ** Notions used in the statements *)

(** The type identifiers of the candidates, in iteration order. *)
Definition keys_of (type_iter : list class) : list string :=
  (λ t : class, _type_to_key t) <$> type_iter.

(** The candidates whose identifier is [k], in iteration order. *)
Definition candidates_named (k : string) (type_iter : list class) : list class :=
  filter (λ t : class, _type_to_key t = k) type_iter.

(** A parameter that [_param_map_func] records: not named [self] and not
    variadic. *)
Definition recorded (p : Param) : Prop :=
  p_name p ≠ "self" ∧ p_kind p ≠ VAR_POSITIONAL ∧ p_kind p ≠ VAR_KEYWORD.

(** ** Inputs of the examples *)

(** A standard configuration that selects the identifier shared by the
    classes called [T]. *)
Definition T_config : dict :=
  <["tests.test_configuration.T" := VDict ∅]>
    {[ "type" := VStr "tests.test_configuration.T" ]}.

(** [isinstance(cls, type) and issubclass(cls, Configurable)], the condition
    that [make_default_config] asserts of every element. *)
Definition conforming_type (o : object) : bool :=
  match o with
  | Class c => cls_is_configurable c
  | Instance _ _ => false
  end.

(** A candidate that [make_default_config] accepts and whose
    [get_default_config] returns [dflt]. *)
Definition has_default (c : class) (dflt : dict) : Prop :=
  cls_is_configurable c = true ∧ get_default_config c = Return dflt.

(** The class [c] with [f] in the place of its [from_config] method. *)
Definition with_from_config (f : value → list value → M (value * value))
    (c : class) : class :=
  mkClass (core c) (get_default_config c) f (get_config c).

(** ** [configuration_test_helper] *)

(** [json.loads(json.dumps(v))].  [json.dumps] raises [TypeError] on an
    object that is not a JSON value, here an instance; on the JSON values of
    this embedding (string keys, finite numbers) serialising and loading
    again rebuilds the value. *)
Fixpoint json_serializable (v : value) : bool :=
  match v with
  | VList l => forallb json_serializable l
  | VDict d => map_fold (λ _ x acc, acc && json_serializable x) true d
  | VInst _ _ _ => false
  | _ => true
  end.

Definition json_round_trip (v : value) : outcome value :=
  if json_serializable v then Return v
  else Raise (TypeError "Object is not JSON serializable").

(** [set(v)] as far as it can equal a set of strings: [Some keys] for a
    set of strings, [None] for a set holding something else.  A dictionary
    gives its keys, a string its characters, a list its elements, which must
    be hashable; other values are not iterable. *)
Definition set_of (v : value) : outcome (option (gset string)) :=
  match v with
  | VDict d => Return (Some (dom d))
  | VStr s =>
      Return (Some (list_to_set ((λ a, String a EmptyString)
                                   <$> String.list_ascii_of_string s)))
  | VList l =>
      if forallb (λ x, match x with VList _ | VDict _ => false | _ => true end) l
      then Return (if forallb (λ x, match x with VStr _ => true | _ => false end) l
                   then Some (list_to_set (omap (λ x, match x with
                                                      | VStr s => Some s
                                                      | _ => None
                                                      end) l))
                   else None)
      else Raise (TypeError "unhashable type")
  | _ => Raise (TypeError "object is not iterable")
  end.

(** [inspect.signature(object.__init__)], which [inspect] reports as
    [(self, /, *args, **kwargs)]. *)
Definition object_init_sig : Signature :=
  [ mkParam "self" POSITIONAL_ONLY None;
    mkParam "args" VAR_POSITIONAL None;
    mkParam "kwargs" VAR_KEYWORD None ].

(** [inspect.signature(cls.__init__)]. *)
Definition init_signature (cls : class_core) : Signature :=
  match cls_init cls with
  | Some sig => sig
  | None => object_init_sig
  end.

(** The assertions of the helper, in the order of the source, and the
    exceptions that pass through it.  The fifth, "Failed to load serialized
    default config.", answers a [ValueError] of [json.loads]. *)
Inductive helper_error :=
| Assert_passed_a_type
| Assert_default_keys_mismatch
| Assert_json_mismatch
| Assert_json_not_serializable (name : string)
| Assert_json_not_loadable
| Assert_config_keys_mismatch
| Assert_configs_differ (left right : nat)
| Raised (e : error).

Inductive verdict (A : Type) :=
| Passed (a : A)
| Failed (e : helper_error).
Arguments Passed {A} a.
Arguments Failed {A} e.

Definition H (A : Type) : Type := St → St * verdict A.

#[global] Instance H_ret : MRet H := λ A a st, (st, Passed a).
#[global] Instance H_bind : MBind H := λ A B k m st,
  match m st with
  | (st', Passed a) => k a st'
  | (st', Failed e) => (st', Failed e)
  end.

Definition fail {A} (e : helper_error) : H A := λ st, (st, Failed e).

Definition check (b : bool) (e : helper_error) : H unit :=
  if b then mret tt else fail e.

Definition run {A} (m : M A) : H A :=
  λ st, match m st with
        | (st', Return a) => (st', Passed a)
        | (st', Raise e) => (st', Failed (Raised e))
        end.

(** The configurations are numbered after their instances: [inst_config] is
    1, [inst2_config] 2, and so on.  [inst_config] and [inst2_config] are
    rebound to what [from_config] leaves in them. *)
Definition configuration_test_helper (inst : object)
    (config_ignored_params : gset string) (from_config_args : list value)
    : H (value * value * value) :=
  match inst with
  | Class _ => fail Assert_passed_a_type
  | Instance inst_T self =>
      dflt_cfg ← run (lift (get_default_config inst_T));
      let init_param_map := _param_map_func (init_signature inst_T) in
      check (bool_decide (dom dflt_cfg = dom init_param_map ∖ config_ignored_params))
            Assert_default_keys_mismatch;;
      match json_round_trip (VDict dflt_cfg) with
      | Return loaded => check (py_eq loaded (VDict dflt_cfg)) Assert_json_mismatch
      | Raise _ => fail (Assert_json_not_serializable (cls_name inst_T))
      end;;
      inst_config ← run (lift (get_config inst_T self));
      inst_keys ← run (lift (set_of inst_config));
      check (bool_decide (inst_keys = Some (dom dflt_cfg)))
            Assert_config_keys_mismatch;;
      '(inst_config, inst2) ←
        run (call_from_config inst_T inst_config from_config_args);
      inst2_config ← run (lift (get_config inst_T inst2));
      '(inst_config, inst3) ←
        run (call_from_config inst_T inst_config from_config_args);
      inst3_config ← run (lift (get_config inst_T inst3));
      '(inst2_config, inst4) ←
        run (call_from_config inst_T inst2_config from_config_args);
      inst4_config ← run (lift (get_config inst_T inst4));
      check (py_eq inst_config inst2_config) (Assert_configs_differ 1 2);;
      check (py_eq inst_config inst3_config) (Assert_configs_differ 1 3);;
      check (py_eq inst2_config inst3_config) (Assert_configs_differ 2 3);;
      check (py_eq inst_config inst4_config) (Assert_configs_differ 1 4);;
      check (py_eq inst3_config inst4_config) (Assert_configs_differ 3 4);;
      mret (inst2, inst3, inst4)
  end.

(** ** Further notions used in the statements *)

(** A class on which attribute lookup finds the [from_config] of
    [Configurable]. *)
Definition inherits_from_config (c : class) : Prop :=
  from_config c = Configurable.from_config c (get_default_config c).

#[global] Instance recorded_dec (p : Param) : Decision (recorded p).
Proof. unfold recorded. apply _. Defined.

(** The size of a value, for inductions over nested values. *)
Fixpoint value_size (v : value) : nat :=
  match v with
  | VList l => S (foldr (λ x acc, value_size x + acc)%nat 0%nat l)
  | VDict d => S (map_fold (λ _ x acc, value_size x + acc)%nat 0%nat d)
  | VInst _ _ attrs => S (map_fold (λ _ x acc, value_size x + acc)%nat 0%nat attrs)
  | _ => 1%nat
  end.

(** ** Classes beside those of the tests *)

(** [def __init__(this, a)]: a constructor whose receiver is not called
    [self].  [_param_map_func] reads [inspect.signature(cls.__init__)], the
    signature of the plain function, which lists the receiver first. *)
Definition ReceiverNamedThis_sig : Signature :=
  [ mkParam "this" POSITIONAL_OR_KEYWORD None;
    mkParam "a" POSITIONAL_OR_KEYWORD None ].

Definition ReceiverNamedThis : class :=
  test_configuration.local_class 8 "ReceiverNamedThis"
    (Some ReceiverNamedThis_sig).

(** [class InheritsInit (T): pass] under the class [T] of
    [def __init__(self, a, b, cat)]: the class declares no constructor, and
    the attribute lookup [cls.__init__] finds the function of [T]. *)
Definition InheritsInit : class :=
  test_configuration.local_class 9 "InheritsInit"
    (cls_init test_configuration.T_plain).

(** *** [class Composite (Configurable)]

    A class that keeps a plugin under [child] and whose [from_config] is
    written after the pattern of the docstring of [Configurable.from_config]:
    shallow copy, optional merge of the defaults, then the conversion
    [config_dict['child'] = from_config_dict(config_dict['child'],
    T_CLASS_SET)], then the call of the inherited method. *)
Definition Composite_init_sig : Signature :=
  [ test_configuration.self_param;
    mkParam "child" POSITIONAL_OR_KEYWORD None ].

Definition Composite_init (locals : dict) : outcome dict :=
  child ← getitem locals "child";
  Return {[ "child" := child ]}.

Definition Composite_core : class_core :=
  mkCore 10 "tests.test_configuration" "Composite" true
         (Some Composite_init_sig) (call_init 10 Composite_init_sig Composite_init).

Definition Composite_from_config (config_dict : value) (args : list value)
    : M (value * value) :=
  merge_default ← match args with
                  | [] => mret (VBool true)
                  | [m] => mret m
                  | _ => raise (TypeError "too many positional arguments")
                  end;
  copy ← lift (as_mapping config_dict);
  let copy := if truthy merge_default
              then merge_dict (Configurable.get_default_config Composite_core) copy
              else copy in
  child ← lift (getitem copy "child");
  child ← lift (as_mapping child);
  '(_, child_inst) ← from_config_dict child test_configuration.T_CLASS_SET [];
  let copy := <["child" := child_inst]> copy in
  '(_, inst) ← Configurable.from_config Composite_core
                 (Return (Configurable.get_default_config Composite_core))
                 (VDict copy) [merge_default];
  mret (config_dict, inst).

(** [return {'child': to_config_dict(self.child)}] *)
Definition Composite_get_config (self : value) : outcome value :=
  child ← getattr self "child";
  match child with
  | VInst _ cid _ =>
      match find (λ c : class, Nat.eqb (cls_id c) cid)
                 test_configuration.T_CLASS_SET with
      | Some c =>
          child_config ← to_config_dict (Instance c child);
          Return (VDict {[ "child" := VDict child_config ]})
      | None => Raise Not_a_configurable_instance
      end
  | _ => Raise Not_a_configurable_instance
  end.

Definition Composite : class :=
  mkClass Composite_core
    (Return (Configurable.get_default_config Composite_core))
    Composite_from_config Composite_get_config.

(** A standard configuration that selects [Composite] and whose nested
    block under [child] has no ["type"]. *)
Definition Composite_block : value := VDict {[ "child" := VDict ∅ ]}.

Definition Composite_config : dict :=
  <["tests.test_configuration.Composite" := Composite_block]>
    {[ "type" := VStr "tests.test_configuration.Composite" ]}.

(** * Properties *)

(** A decidable closed proposition, settled by evaluation. *)
Ltac by_computation :=
  match goal with
  | |- ?P => refine (@bool_decide_unpack P _ _); vm_compute; exact I
  end.

(** ** Running computations *)

Lemma bind_Return {A B} (m : M A) (k : A → M B) st st' a :
  m st = (st', Return a) → (m ≫= k) st = k a st'.
Proof. intros H. unfold mbind, M_bind, bind. by rewrite H. Qed.

Lemma bind_Raise {A B} (m : M A) (k : A → M B) st st' e :
  m st = (st', Raise e) → (m ≫= k) st = (st', Raise e).
Proof. intros H. unfold mbind, M_bind, bind. by rewrite H. Qed.

(** ** Type identifiers *)

(** An identifier contains a dot, so it is never the key ["type"]. *)
Lemma _type_to_key_not_type (t : class_core) : _type_to_key t ≠ "type".
Proof.
  unfold _type_to_key.
  destruct (cls_module t) as [|a1 [|a2 [|a3 [|a4 [|a5 m]]]]]; simpl;
    intros H; simplify_eq.
Qed.

Lemma make_type_map_snoc type_iter t :
  make_type_map (type_iter ++ [t]) = <[_type_to_key t := t]> (make_type_map type_iter).
Proof. unfold make_type_map. by rewrite foldl_app. Qed.

Lemma make_type_map_lookup type_iter k :
  make_type_map type_iter !! k = last (candidates_named k type_iter).
Proof.
  induction type_iter as [|t type_iter IH] using rev_ind; [done|].
  rewrite make_type_map_snoc. unfold candidates_named in *.
  rewrite filter_app, filter_cons, filter_nil.
  destruct (decide (_type_to_key t = k)) as [->|Hne].
  - by rewrite lookup_insert_eq, last_snoc.
  - rewrite lookup_insert_ne by done. by rewrite app_nil_r.
Qed.

Lemma make_type_map_dom type_iter :
  dom (make_type_map type_iter) = list_to_set (keys_of type_iter).
Proof.
  induction type_iter as [|t type_iter IH] using rev_ind; [done|].
  rewrite make_type_map_snoc, dom_insert_L, IH. unfold keys_of.
  rewrite fmap_app, list_to_set_app_L. simpl. set_solver.
Qed.

Lemma make_type_map_None type_iter k :
  make_type_map type_iter !! k = None ↔ k ∉ keys_of type_iter.
Proof.
  rewrite <-not_elem_of_dom, make_type_map_dom. by rewrite elem_of_list_to_set.
Qed.

Lemma make_type_map_Some type_iter k (cls : class) :
  make_type_map type_iter !! k = Some cls → cls ∈ type_iter ∧ _type_to_key cls = k.
Proof.
  rewrite make_type_map_lookup, last_Some. intros [l Hl].
  assert (cls ∈ candidates_named k type_iter) as Hin.
  { rewrite Hl. set_solver. }
  unfold candidates_named in Hin. by apply list_elem_of_filter in Hin as [? ?].
Qed.

(** ** [cls_conf_from_config_dict] *)

Section resolve.
Context (config : dict) (type_iter : list class).

Lemma resolve_missing_type :
  config !! "type" = None →
  cls_conf_from_config_dict config type_iter = Raise Missing_type.
Proof. unfold cls_conf_from_config_dict. by intros ->. Qed.

Lemma resolve_unset_type :
  config !! "type" = Some VNone →
  cls_conf_from_config_dict config type_iter = Raise (Unset_type (dom config ∖ {[ "type" ]})).
Proof. unfold cls_conf_from_config_dict. by intros ->. Qed.

Lemma resolve_no_config_block s :
  config !! "type" = Some (VStr s) → s ∉ dom config ∖ {[ "type" ]} →
  cls_conf_from_config_dict config type_iter
  = Raise (No_config_block (VStr s) (dom config ∖ {[ "type" ]})).
Proof.
  unfold cls_conf_from_config_dict. intros -> Hs.
  by rewrite bool_decide_eq_true_2.
Qed.

Lemma resolve_unknown_implementation s :
  config !! "type" = Some (VStr s) → s ∈ dom config ∖ {[ "type" ]} →
  s ∉ keys_of type_iter →
  cls_conf_from_config_dict config type_iter
  = Raise (Unknown_implementation s (list_to_set (keys_of type_iter))).
Proof.
  unfold cls_conf_from_config_dict. intros -> Hs Hk.
  rewrite bool_decide_eq_false_2 by (by intros ?).
  apply make_type_map_None in Hk. by rewrite Hk, make_type_map_dom.
Qed.

Lemma resolve_found s :
  config !! "type" = Some (VStr s) → s ∈ dom config ∖ {[ "type" ]} →
  s ∈ keys_of type_iter →
  ∃ (cls : class) conf,
    cls_conf_from_config_dict config type_iter = Return (cls, conf)
    ∧ last (candidates_named s type_iter) = Some cls
    ∧ config !! s = Some conf.
Proof.
  unfold cls_conf_from_config_dict. intros -> Hs Hk.
  rewrite bool_decide_eq_false_2 by (by intros ?).
  destruct (make_type_map type_iter !! s) as [cls|] eqn:Hm.
  2:{ by apply make_type_map_None in Hm. }
  assert (is_Some (config !! s)) as [conf Hconf].
  { apply elem_of_dom. set_solver. }
  exists cls, conf. rewrite Hconf.
  by rewrite <-make_type_map_lookup.
Qed.

End resolve.

(** C2. [cls_conf_from_config_dict] validates in a fixed order, the first
    applicable failure winning: a missing ["type"] key is a missing-type
    error; a null ["type"] is an unset-type error that reports every key
    other than ["type"]; a named type without a block of its own among the
    other keys is a no-config-block error reporting those keys; a named type
    with a block but without a candidate of that identifier is an
    unknown-implementation error reporting the candidates' identifiers;
    otherwise a candidate with that identifier is returned with the block
    stored under it. *)
Theorem cls_conf_from_config_dict_order (config : dict) (type_iter : list class) :
  (config !! "type" = None →
   cls_conf_from_config_dict config type_iter = Raise Missing_type)
  ∧ (config !! "type" = Some VNone →
     cls_conf_from_config_dict config type_iter
     = Raise (Unset_type (dom config ∖ {[ "type" ]})))
  ∧ (∀ s, config !! "type" = Some (VStr s) →
       (s ∉ dom config ∖ {[ "type" ]} →
        cls_conf_from_config_dict config type_iter
        = Raise (No_config_block (VStr s) (dom config ∖ {[ "type" ]})))
       ∧ (s ∈ dom config ∖ {[ "type" ]} → s ∉ keys_of type_iter →
          cls_conf_from_config_dict config type_iter
          = Raise (Unknown_implementation s (list_to_set (keys_of type_iter))))
       ∧ (s ∈ dom config ∖ {[ "type" ]} → s ∈ keys_of type_iter →
          ∃ (cls : class) conf,
            cls_conf_from_config_dict config type_iter = Return (cls, conf)
            ∧ cls ∈ type_iter ∧ _type_to_key cls = s
            ∧ config !! s = Some conf)).
Proof.
  split; [apply resolve_missing_type|].
  split; [apply resolve_unset_type|].
  intros s Htype. split; [by apply resolve_no_config_block|].
  split; [by apply resolve_unknown_implementation|].
  intros Hs Hk.
  destruct (resolve_found config type_iter s Htype Hs Hk)
    as (cls & conf & Hr & Hlast & Hconf).
  exists cls, conf. split; [done|].
  rewrite <-make_type_map_lookup in Hlast.
  apply make_type_map_Some in Hlast as [? ?]. done.
Qed.

Lemma cls_conf_from_config_dict_order_witness :
  cls_conf_from_config_dict test_configuration.test_blocks
    test_configuration.T_CLASS_SET = Raise Missing_type
  ∧ cls_conf_from_config_dict (test_configuration.test_config VNone)
      test_configuration.T_CLASS_SET
    = Raise (Unset_type (dom (test_configuration.test_config VNone) ∖ {[ "type" ]}))
  ∧ cls_conf_from_config_dict
      (test_configuration.test_config (VStr "not-present-label"))
      test_configuration.T_CLASS_SET
    = Raise (No_config_block (VStr "not-present-label")
        (dom (test_configuration.test_config (VStr "not-present-label")) ∖ {[ "type" ]}))
  ∧ cls_conf_from_config_dict
      (test_configuration.test_config (VStr "NotAnImpl"))
      test_configuration.T_CLASS_SET
    = Raise (Unknown_implementation "NotAnImpl"
        (list_to_set (keys_of test_configuration.T_CLASS_SET)))
  ∧ ∃ (cls : class) conf,
      cls_conf_from_config_dict
        (test_configuration.test_config (VStr "tests.test_configuration.T1"))
        test_configuration.T_CLASS_SET = Return (cls, conf)
      ∧ cls ∈ test_configuration.T_CLASS_SET
      ∧ _type_to_key cls = "tests.test_configuration.T1"
      ∧ test_configuration.test_config (VStr "tests.test_configuration.T1")
          !! "tests.test_configuration.T1" = Some conf.
Proof.
  split.
  { apply (cls_conf_from_config_dict_order test_configuration.test_blocks).
    reflexivity. }
  split.
  { apply (cls_conf_from_config_dict_order (test_configuration.test_config VNone)).
    reflexivity. }
  split.
  { apply (cls_conf_from_config_dict_order
             (test_configuration.test_config (VStr "not-present-label")));
      [reflexivity | by_computation]. }
  split.
  { apply (cls_conf_from_config_dict_order
             (test_configuration.test_config (VStr "NotAnImpl")));
      [reflexivity | by_computation | by_computation]. }
  apply (cls_conf_from_config_dict_order
           (test_configuration.test_config (VStr "tests.test_configuration.T1")));
    [reflexivity | by_computation | by_computation].
Defined.

(** ** [_param_map_func] and [get_default_config] *)

Lemma keep_kinds_spec (k : kind) :
  k ∈ keep_kinds ↔ k ≠ VAR_POSITIONAL ∧ k ≠ VAR_KEYWORD.
Proof.
  unfold keep_kinds. rewrite !elem_of_cons, elem_of_nil.
  destruct k; naive_solver.
Qed.

Lemma _param_map_func_snoc (sig : Signature) (p : Param) :
  _param_map_func (sig ++ [p])%list =
    if String.eqb (p_name p) "self" then _param_map_func sig
    else if bool_decide (p_kind p ∈ keep_kinds)
         then <[p_name p := default VNone (p_default p)]> (_param_map_func sig)
         else _param_map_func sig.
Proof.
  unfold _param_map_func. rewrite foldl_app. simpl.
  by destruct (p_default p).
Qed.

Lemma _param_map_func_lookup (sig : Signature) k v :
  NoDup (p_name <$> sig) →
  _param_map_func sig !! k = Some v ↔
  ∃ p, p ∈ sig ∧ p_name p = k ∧ recorded p ∧ v = default VNone (p_default p).
Proof.
  induction sig as [|p sig IH] using rev_ind; intros Hnd.
  - split; [done|]. intros (p & Hp & _). by apply elem_of_nil in Hp.
  - rewrite fmap_app in Hnd. apply NoDup_app in Hnd as (Hnd & Hfresh & _).
    specialize (IH Hnd). rewrite _param_map_func_snoc.
    assert (p_name p ∉ p_name <$> sig) as Hp.
    { intros Hin. apply (Hfresh _ Hin). set_solver. }
    assert (∀ q, q ∈ sig → p_name q ≠ p_name p) as Hq.
    { intros q Hq Heq. apply Hp. rewrite <-Heq. by apply list_elem_of_fmap_2. }
    destruct (String.eqb_spec (p_name p) "self") as [Hself|Hself].
    { rewrite IH. split; intros (q & Hin & ?); exists q.
      - set_solver.
      - apply elem_of_app in Hin as [?|Hin]; [done|].
        apply list_elem_of_singleton in Hin as ->. unfold recorded in *. naive_solver. }
    case_bool_decide as Hkind.
    + destruct (decide (p_name p = k)) as [<-|Hne].
      * rewrite lookup_insert_eq. split.
        -- intros [= <-]. exists p. split; [set_solver|].
           apply keep_kinds_spec in Hkind. unfold recorded. naive_solver.
        -- intros (q & Hin & Hname & _ & ->).
           apply elem_of_app in Hin as [Hin|Hin]; [by apply Hq in Hin|].
           by apply list_elem_of_singleton in Hin as ->.
      * rewrite lookup_insert_ne by done. rewrite IH.
        split; intros (q & Hin & ?); exists q; [set_solver|].
        apply elem_of_app in Hin as [?|Hin]; [done|].
        apply list_elem_of_singleton in Hin as ->. naive_solver.
    + rewrite IH. split; intros (q & Hin & ?); exists q; [set_solver|].
      apply elem_of_app in Hin as [?|Hin]; [done|].
      apply list_elem_of_singleton in Hin as ->.
      rewrite keep_kinds_spec in Hkind. unfold recorded in *. naive_solver.
Qed.

(** C3, as the code has it.  The inherited [get_default_config] has exactly
    one key for every parameter of [cls.__init__] that is neither named
    [self] nor variadic: the key is the parameter's name and its value the
    declared default, or [None] when there is none.  The receiver is left
    out by its name, not by its place.  A class on which [cls.__init__] is
    not a Python function, neither the class nor an ancestor declaring a
    constructor, has the empty mapping. *)
Theorem get_default_config_parameters (cls : class_core) :
  (∀ sig, cls_init cls = Some sig → NoDup (p_name <$> sig) →
     ∀ k v, Configurable.get_default_config cls !! k = Some v ↔
            ∃ p, p ∈ sig ∧ p_name p = k
                 ∧ k ≠ "self"
                 ∧ p_kind p ≠ VAR_POSITIONAL ∧ p_kind p ≠ VAR_KEYWORD
                 ∧ v = default VNone (p_default p))
  ∧ (cls_init cls = None → Configurable.get_default_config cls = ∅).
Proof.
  unfold Configurable.get_default_config. split.
  - intros sig -> Hnd k v. rewrite _param_map_func_lookup by done.
    unfold recorded. split; intros (p & ? & ? & ?); exists p; naive_solver.
  - by intros ->.
Qed.

Lemma get_default_config_parameters_witness :
  (Configurable.get_default_config test_configuration.T_defaults_star !! "d"
   = Some (VStr "foobar")
   ∧ Configurable.get_default_config test_configuration.T_defaults_star !! "a"
     = Some VNone
   ∧ Configurable.get_default_config test_configuration.T_defaults_star !! "kwargs"
     = None)
  ∧ Configurable.get_default_config test_configuration.NoInitExample = ∅.
Proof.
  pose proof (get_default_config_parameters test_configuration.T_defaults_star)
    as [Hsig _].
  specialize (Hsig test_configuration.T_defaults_star_sig eq_refl).
  assert (NoDup (p_name <$> test_configuration.T_defaults_star_sig)) as Hnd
    by by_computation.
  specialize (Hsig Hnd).
  split; [|by apply (get_default_config_parameters test_configuration.NoInitExample)].
  split; [|split].
  - apply Hsig. exists (mkParam "d" POSITIONAL_OR_KEYWORD (Some (VStr "foobar"))).
    split_and!; try done.
    unfold test_configuration.T_defaults_star_sig. set_solver.
  - apply Hsig. exists (mkParam "a" POSITIONAL_OR_KEYWORD None).
    split_and!; try done.
    unfold test_configuration.T_defaults_star_sig. set_solver.
  - apply eq_None_not_Some. intros [v Hv]. apply Hsig in Hv as (p & Hp & Hname & _ & _ & Hkw & _).
    unfold test_configuration.T_defaults_star_sig in Hp.
    repeat (apply elem_of_cons in Hp as [->|Hp]; [by simplify_eq/=|]).
    by apply elem_of_nil in Hp.
Defined.

(** C3 as stated fails on two classes.  The constructor
    [def __init__(this, a)] has the receiver [this], which is neither
    variadic nor named [self]: it is a key of the default configuration.
    And [class InheritsInit (T): pass] declares no constructor, yet its
    default configuration is that of the parent's [__init__(self, a, b, cat)]
    and not the empty mapping. *)
Lemma get_default_config_receiver_counterexample :
  (cls_init ReceiverNamedThis = Some ReceiverNamedThis_sig
   ∧ head ReceiverNamedThis_sig = Some (mkParam "this" POSITIONAL_OR_KEYWORD None)
   ∧ Configurable.get_default_config ReceiverNamedThis !! "this" = Some VNone)
  ∧ Configurable.get_default_config InheritsInit
    = <["cat" := VNone]> (<["b" := VNone]> {[ "a" := VNone ]})
  ∧ Configurable.get_default_config InheritsInit ≠ ∅.
Proof.
  split; [by split_and!|]. split; [by vm_compute|]. by vm_compute.
Qed.

(** ** Colliding identifiers *)

Lemma candidates_named_last (before after : list class) (c : class) :
  (∀ c' : class, c' ∈ after → _type_to_key c' ≠ _type_to_key c) →
  last (candidates_named (_type_to_key c) (before ++ c :: after)) = Some c.
Proof.
  intros Hafter. unfold candidates_named.
  rewrite filter_app, filter_cons_True by done.
  assert (filter (λ t : class, _type_to_key t = _type_to_key c) after = []) as ->.
  { clear -Hafter. induction after as [|c' after IH]; [done|].
    rewrite filter_cons_False by (apply Hafter; left).
    apply IH. intros c'' Hc''. apply Hafter. by right. }
  by rewrite last_snoc.
Qed.

(** C8. The identifier of a class is its module, a dot and its name.  Among
    candidates with one identifier the lookup map of
    [cls_conf_from_config_dict] keeps the one that comes last in the
    iteration, and that is the class a resolution of this identifier
    returns. *)
Theorem type_key_last_wins (config : dict) (before after : list class)
    (c : class) (conf : value) :
  _type_to_key c = cls_module c ++ "." ++ cls_name c
  ∧ ((∀ c' : class, c' ∈ after → _type_to_key c' ≠ _type_to_key c) →
     make_type_map (before ++ c :: after) !! _type_to_key c = Some c
     ∧ (config !! "type" = Some (VStr (_type_to_key c)) →
        config !! _type_to_key c = Some conf →
        cls_conf_from_config_dict config (before ++ c :: after)
        = Return (c, conf))).
Proof.
  split; [done|]. intros Hafter.
  assert (make_type_map (before ++ c :: after) !! _type_to_key c = Some c) as Hmap.
  { rewrite make_type_map_lookup. by apply candidates_named_last. }
  split; [done|]. intros Htype Hconf.
  unfold cls_conf_from_config_dict. rewrite Htype.
  rewrite bool_decide_eq_false_2.
  - by rewrite Hmap, Hconf.
  - intros Hnot. apply Hnot.
    apply elem_of_difference. split; [by apply elem_of_dom|].
    rewrite elem_of_singleton. apply _type_to_key_not_type.
Qed.

Lemma type_key_last_wins_witness :
  _type_to_key test_configuration.T_plain = _type_to_key test_configuration.T_kwonlys
  ∧ make_type_map [test_configuration.T_plain; test_configuration.T_kwonlys;
                   test_configuration.T1]
      !! "tests.test_configuration.T" = Some test_configuration.T_kwonlys
  ∧ cls_conf_from_config_dict T_config
      [test_configuration.T_plain; test_configuration.T_kwonlys;
       test_configuration.T1]
    = Return (test_configuration.T_kwonlys, VDict ∅).
Proof.
  split; [reflexivity|].
  destruct (type_key_last_wins T_config [test_configuration.T_plain]
              [test_configuration.T1] test_configuration.T_kwonlys (VDict ∅))
    as [_ H].
  destruct H as [Hmap Hres].
  { intros c' Hc'. apply list_elem_of_singleton in Hc' as ->. by vm_compute. }
  split; [exact Hmap|]. apply Hres; reflexivity.
Defined.

(** ** [make_default_config] *)

Lemma make_default_config_loop_app (d : dict) (its1 its2 : list object) :
  make_default_config_loop d (its1 ++ its2)
  = make_default_config_loop d its1 ≫= λ d', make_default_config_loop d' its2.
Proof.
  revert d. induction its1 as [|o its1 IH]; intros d; [done|].
  simpl. destruct o as [c|c self]; [|done].
  destruct (cls_is_configurable c); [|done].
  destruct (get_default_config c) as [dflt|e]; [|done].
  simpl. apply IH.
Qed.

Lemma make_default_config_loop_reject (d : dict) (o : object) (rest : list object) :
  conforming_type o = false →
  make_default_config_loop d (o :: rest)
  = Raise (Assert_invalid_configurable_type (repr o)).
Proof. destruct o as [c|c self]; simpl; [by intros ->|done]. Qed.

Lemma make_default_config_loop_accept (d : dict) (cs : list class)
    (dflts : list dict) :
  Forall2 has_default cs dflts →
  ∃ d', make_default_config_loop d (Class <$> cs) = Return d'
        ∧ d' !! "type" = d !! "type"
        ∧ dom d' = dom d ∪ list_to_set (keys_of cs)
        ∧ (∀ i (c : class) dflt,
             cs !! i = Some c → dflts !! i = Some dflt →
             (∀ j (c' : class), (i < j)%nat → cs !! j = Some c' →
                                _type_to_key c' ≠ _type_to_key c) →
             d' !! _type_to_key c = Some (VDict dflt))
        ∧ (NoDup (keys_of cs) → dom d ## list_to_set (keys_of cs) →
           size d' = (size d + length cs)%nat).
Proof.
  revert dflts. induction cs as [|c cs IH] using rev_ind; intros dflts Hall.
  { exists d. split; [done|]. split; [done|]. split; [set_solver|].
    split; [by intros ? ? ? [=]|]. intros _ _. simpl. lia. }
  apply Forall2_app_inv_l in Hall as (dflts0 & dl & Hall & Hc & ->).
  apply Forall2_cons_inv_l in Hc as (dflt & ? & [Hconf Hdflt] & Hnil & ->).
  apply Forall2_nil_inv_l in Hnil as ->.
  destruct (IH _ Hall) as (d0 & Hrun & Htype & Hdom & Hget & Hsize).
  exists (<[_type_to_key c := VDict dflt]> d0).
  assert (length cs = length dflts0) as Hlen by by eapply Forall2_length.
  split.
  { rewrite fmap_app, make_default_config_loop_app, Hrun. simpl.
    by rewrite Hconf, Hdflt. }
  split.
  { rewrite lookup_insert_ne; [done|]. apply _type_to_key_not_type. }
  split.
  { rewrite dom_insert_L, Hdom. unfold keys_of.
    rewrite fmap_app, list_to_set_app_L. simpl. set_solver. }
  split.
  - intros i c1 dflt1 Hi Hd Hlater.
    destruct (decide (i < length cs)%nat) as [Hlt|Hge].
    + rewrite lookup_app_l in Hi by done.
      rewrite lookup_app_l in Hd by lia.
      rewrite lookup_insert_ne.
      * apply (Hget i); [done..|]. intros j c' Hij Hj.
        apply (Hlater j); [done|]. rewrite lookup_app_l; [done|].
        by eapply lookup_lt_Some.
      * apply (Hlater (length cs)); [done|]. by rewrite list_lookup_middle.
    + rewrite lookup_app_r in Hi by lia. rewrite lookup_app_r in Hd by lia.
      rewrite <-Hlen in Hd.
      destruct (i - length cs)%nat; simplify_eq/=.
      by rewrite lookup_insert_eq.
  - intros Hnd Hdisj. unfold keys_of in Hnd, Hdisj.
    rewrite fmap_app in Hnd, Hdisj. simpl in Hnd, Hdisj.
    apply NoDup_app in Hnd as (Hnd & Hfresh & _).
    rewrite list_to_set_app_L in Hdisj.
    rewrite length_app. simpl.
    rewrite map_size_insert_None.
    + rewrite Hsize; [lia|done|set_solver].
    + apply not_elem_of_dom. rewrite Hdom. apply not_elem_of_union. split.
      * set_solver.
      * rewrite elem_of_list_to_set. intros Hin. apply (Hfresh _ Hin). set_solver.
Qed.

(** C5, as the code has it.  Given conforming candidate types, whatever
    their number, [make_default_config] returns a dictionary whose ["type"] is [None] and
    whose other keys are exactly the candidates' identifiers; each identifier
    maps to the result of its candidate's [get_default_config] (of the last
    candidate that bears it), so that with distinct identifiers there is
    exactly one additional entry per candidate. *)
Theorem make_default_config_entries (cs : list class) (dflts : list dict) :
  Forall2 has_default cs dflts →
  ∃ d, make_default_config (Class <$> cs) = Return d
       ∧ d !! "type" = Some VNone
       ∧ dom d = {[ "type" ]} ∪ list_to_set (keys_of cs)
       ∧ (∀ i (c : class) dflt,
            cs !! i = Some c → dflts !! i = Some dflt →
            (∀ j (c' : class), (i < j)%nat → cs !! j = Some c' →
                               _type_to_key c' ≠ _type_to_key c) →
            d !! _type_to_key c = Some (VDict dflt))
       ∧ (NoDup (keys_of cs) → size d = S (length cs)).
Proof.
  intros Hall.
  destruct (make_default_config_loop_accept {[ "type" := VNone ]} cs dflts Hall)
    as (d & Hrun & Htype & Hdom & Hget & Hsize).
  exists d. split; [done|].
  split; [by rewrite Htype, lookup_singleton_eq|].
  split; [by rewrite Hdom, dom_singleton_L|].
  split; [done|].
  intros Hnd. rewrite Hsize, map_size_singleton; [done..|].
  rewrite dom_singleton_L. intros k Hk Hin.
  apply elem_of_singleton in Hk as ->.
  apply elem_of_list_to_set, list_elem_of_fmap in Hin as (c & Hc & _).
  by eapply _type_to_key_not_type.
Qed.

Lemma make_default_config_entries_witness :
  (∃ d, make_default_config [Class test_configuration.T1] = Return d
        ∧ d !! "type" = Some VNone
        ∧ d !! "tests.test_configuration.T1"
          = Some (VDict (Configurable.get_default_config test_configuration.T1))
        ∧ size d = 2%nat)
  ∧ (∃ d, make_default_config (Class <$> test_configuration.T_CLASS_SET)
          = Return d
          ∧ d !! "type" = Some VNone
          ∧ dom d = {[ "type"; "tests.test_configuration.T1";
                       "tests.test_configuration.T2" ]}
          ∧ d !! "tests.test_configuration.T1"
            = Some (test_configuration.T1_config (VInt 1) (VStr "baz"))
          ∧ d !! "tests.test_configuration.T2"
            = Some (test_configuration.T2_config
                      (test_configuration.T1_config (VInt 1) (VStr "baz"))
                      (VFloat 1 (-4)) (VStr "default"))
          ∧ size d = 3%nat).
Proof.
  split.
  - destruct (make_default_config_entries [test_configuration.T1]
                [Configurable.get_default_config test_configuration.T1])
      as (d & Hrun & Htype & _ & Hget & Hsize).
    { repeat constructor. }
    exists d. split; [exact Hrun|]. split; [exact Htype|]. split.
    + apply (Hget 0%nat test_configuration.T1); [reflexivity..|].
      intros [|j] c' Hj; [lia|]. by intros [=].
    + apply Hsize. apply NoDup_singleton.
  - destruct (make_default_config_entries test_configuration.T_CLASS_SET
                [ <["bar" := VStr "baz"]> (<["foo" := VInt 1]> ∅);
                  <["beta" := VStr "default"]>
                    (<["alpha" := VFloat 1 (-4)]>
                       (<["child" := test_configuration.T1_config
                                       (VInt 1) (VStr "baz")]> ∅)) ])
      as (d & Hrun & Htype & Hdom & Hget & Hsize).
    { repeat constructor. }
    exists d. split; [exact Hrun|]. split; [exact Htype|].
    split; [rewrite Hdom; by_computation|]. split; [|split].
    + apply (Hget 0%nat test_configuration.T1); [reflexivity..|].
      intros [|[|j]] c' Hj; [lia| |by intros [=]].
      intros [= <-]. by vm_compute.
    + apply (Hget 1%nat test_configuration.T2); [reflexivity..|].
      intros [|[|j]] c' Hj; [lia..|]. by intros [=].
    + apply Hsize. by_computation.
Defined.

(** C5 as stated fails on candidates that share an identifier.  The two
    test classes called [T] conform and have different default
    configurations; line 311 writes both under
    ["tests.test_configuration.T"], so that the result has one entry beside
    ["type"] for two candidates, and that entry holds the defaults of the
    later class, not those of the first. *)
Lemma make_default_config_collision_counterexample :
  ∃ d, make_default_config [Class test_configuration.T_plain;
                            Class test_configuration.T_kwonlys] = Return d
       ∧ conforming_type (Class test_configuration.T_plain) = true
       ∧ conforming_type (Class test_configuration.T_kwonlys) = true
       ∧ get_default_config test_configuration.T_plain
         = Return (Configurable.get_default_config test_configuration.T_plain)
       ∧ d !! "type" = Some VNone
       ∧ size d = 2%nat
       ∧ d !! _type_to_key test_configuration.T_plain
         = Some (VDict (Configurable.get_default_config test_configuration.T_kwonlys))
       ∧ d !! _type_to_key test_configuration.T_plain
         ≠ Some (VDict (Configurable.get_default_config test_configuration.T_plain)).
Proof.
  eexists. split; [reflexivity|]. split_and!; try reflexivity. by vm_compute.
Qed.



(** ** [to_config_dict] *)

Lemma cls_conf_to_config_dict_lookup (cls : class_core) (conf : value) :
  cls_conf_to_config_dict cls conf !! "type" = Some (VStr (_type_to_key cls))
  ∧ cls_conf_to_config_dict cls conf !! _type_to_key cls = Some conf
  ∧ dom (cls_conf_to_config_dict cls conf) = {[ "type"; _type_to_key cls ]}.
Proof.
  unfold cls_conf_to_config_dict. split_and!.
  - rewrite lookup_insert_ne by apply _type_to_key_not_type.
    by rewrite lookup_singleton_eq.
  - by rewrite lookup_insert_eq.
  - rewrite dom_insert_L, dom_singleton_L. set_solver.
Qed.



(** ** [from_config_dict] *)

Lemma from_config_dict_resolved (config : dict) (type_iter : list class)
    (args : list value) (cls : class) (conf : value) (st : St) :
  cls_conf_from_config_dict config type_iter = Return (cls, conf) →
  from_config_dict config type_iter args st
  = if cls_is_configurable cls then
      match from_config cls conf args
              (mkSt (next_oid st)
                 (trace st ++ [Call_from_config (_type_to_key cls) conf args]))
      with
      | (st', Return (conf', inst)) =>
          (st', Return (<[_type_to_key cls := conf']> config, inst))
      | (st', Raise e) => (st', Raise e)
      end
    else (st, Raise (Assert_not_configurable (cls_name cls))).
Proof.
  intros Hres. unfold from_config_dict.
  erewrite bind_Return; [|by rewrite Hres]. cbv beta iota.
  destruct (cls_is_configurable cls).
  - erewrite bind_Return; [|done].
    unfold call_from_config, log, mbind, M_bind, bind.
    destruct (from_config cls conf args _) as [st' [[conf' inst]|e]]; done.
  - by erewrite bind_Raise.
Qed.

Lemma from_config_dict_unresolved (config : dict) (type_iter : list class)
    (args : list value) (e : error) (st : St) :
  cls_conf_from_config_dict config type_iter = Raise e →
  from_config_dict config type_iter args st = (st, Raise e).
Proof.
  intros Hres. unfold from_config_dict.
  erewrite bind_Raise; [done|]. by rewrite Hres.
Qed.

(** C7. Once [cls_conf_from_config_dict] has resolved a class and its
    sub-configuration, [from_config_dict] fails with the assertion error when
    that class does not conform to [Configurable]; otherwise its outcome is
    that of the call [cls.from_config(cls_conf, *args)], which receives the
    extra arguments after the configuration. *)
Theorem from_config_dict_delegates (config : dict) (type_iter : list class)
    (args : list value) (cls : class) (conf : value) :
  cls_conf_from_config_dict config type_iter = Return (cls, conf) →
  (cls_is_configurable cls = false →
   ∀ st, from_config_dict config type_iter args st
         = (st, Raise (Assert_not_configurable (cls_name cls))))
  ∧ (cls_is_configurable cls = true →
     ∀ st, from_config_dict config type_iter args st
           = match from_config cls conf args
                     (mkSt (next_oid st)
                        (trace st ++ [Call_from_config (_type_to_key cls) conf args]))
             with
             | (st', Return (conf', inst)) =>
                 (st', Return (<[_type_to_key cls := conf']> config, inst))
             | (st', Raise e) => (st', Raise e)
             end).
Proof.
  intros Hres. split; intros Hc st;
    rewrite (from_config_dict_resolved _ _ _ _ _ _ Hres), Hc; done.
Qed.

Lemma from_config_dict_delegates_witness :
  from_config_dict test_configuration.test_config_not_configurable
    test_configuration.test_class_set [] test_configuration.st0
  = (test_configuration.st0, Raise (Assert_not_configurable "NotConfigurable"))
  ∧ (from_config_dict
       (test_configuration.test_config (VStr "tests.test_configuration.T1"))
       test_configuration.T_CLASS_SET [] test_configuration.st0).2
    = Return (test_configuration.test_config (VStr "tests.test_configuration.T1"),
              VInst 1 1 (<["bar" := VStr "Some string value"]>
                           (<["foo" := VInt 256]> ∅))).
Proof.
  split.
  - apply (from_config_dict_delegates
             test_configuration.test_config_not_configurable
             test_configuration.test_class_set []
             test_configuration.NotConfigurable (VDict ∅));
      reflexivity.
  - destruct (from_config_dict_delegates
                (test_configuration.test_config (VStr "tests.test_configuration.T1"))
                test_configuration.T_CLASS_SET []
                test_configuration.T1 test_configuration.T1_block eq_refl)
      as [_ H].
    rewrite (H eq_refl test_configuration.st0).
    vm_compute. reflexivity.
Defined.

Lemma make_type_map_with_from_config f (type_iter : list class) :
  make_type_map (with_from_config f <$> type_iter)
  = with_from_config f <$> make_type_map type_iter.
Proof.
  induction type_iter as [|t type_iter IH] using rev_ind; [done|].
  rewrite fmap_app. simpl. rewrite !make_type_map_snoc, IH.
  by rewrite fmap_insert.
Qed.

(** The resolution does not look at the [from_config] methods. *)
Lemma cls_conf_from_config_dict_with_from_config f (config : dict)
    (type_iter : list class) :
  cls_conf_from_config_dict config (with_from_config f <$> type_iter)
  = match cls_conf_from_config_dict config type_iter with
    | Return (cls, conf) => Return (with_from_config f cls, conf)
    | Raise e => Raise e
    end.
Proof.
  unfold cls_conf_from_config_dict.
  destruct (config !! "type") as [[| | | |s| | |]|]; try done.
  case_bool_decide; [done|].
  rewrite make_type_map_with_from_config, lookup_fmap, dom_fmap_L.
  destruct (make_type_map type_iter !! s) as [cls|]; [|done]. simpl.
  by destruct (config !! s).
Qed.

(** C10, as the code has it.  [from_config_dict] validates before it
    constructs: when its own resolution raises one of the four errors, or
    when the class it resolved fails the conformance assertion, that error
    is the outcome and the interpreter
    state is untouched, so that the trace holds no call of a [from_config]
    method or of a constructor made by this call; and the outcome is the same
    whatever the [from_config] methods of the candidates are, for none of
    them is run. *)
Theorem from_config_dict_validates_first (config : dict)
    (type_iter : list class) (args : list value) (e : error) (st : St) :
  cls_conf_from_config_dict config type_iter = Raise e
  ∨ (∃ (cls : class) conf,
       cls_conf_from_config_dict config type_iter = Return (cls, conf)
       ∧ cls_is_configurable cls = false
       ∧ e = Assert_not_configurable (cls_name cls)) →
  from_config_dict config type_iter args st = (st, Raise e)
  ∧ trace (from_config_dict config type_iter args st).1 = trace st
  ∧ ∀ f, from_config_dict config (with_from_config f <$> type_iter) args st
         = (st, Raise e).
Proof.
  intros [Hres|(cls & conf & Hres & Hc & ->)].
  - rewrite (from_config_dict_unresolved _ _ _ _ _ Hres).
    split; [done|]. split; [done|]. intros f.
    apply from_config_dict_unresolved.
    by rewrite cls_conf_from_config_dict_with_from_config, Hres.
  - rewrite (from_config_dict_resolved _ _ _ _ _ _ Hres), Hc.
    split; [done|]. split; [done|]. intros f.
    rewrite (from_config_dict_resolved _ _ _ (with_from_config f cls) conf).
    + simpl. by rewrite Hc.
    + by rewrite cls_conf_from_config_dict_with_from_config, Hres.
Qed.

Lemma from_config_dict_validates_first_witness :
  (from_config_dict (test_configuration.test_config (VStr "NotAnImpl"))
     test_configuration.T_CLASS_SET [] test_configuration.st0
   = (test_configuration.st0,
      Raise (Unknown_implementation "NotAnImpl"
               (list_to_set (keys_of test_configuration.T_CLASS_SET))))
   ∧ trace (from_config_dict (test_configuration.test_config (VStr "NotAnImpl"))
              test_configuration.T_CLASS_SET [] test_configuration.st0).1 = [])
  ∧ (from_config_dict test_configuration.test_config_not_configurable
       test_configuration.test_class_set [] test_configuration.st0
     = (test_configuration.st0, Raise (Assert_not_configurable "NotConfigurable"))
     ∧ trace (from_config_dict test_configuration.test_config_not_configurable
                test_configuration.test_class_set [] test_configuration.st0).1 = []).
Proof.
  split.
  - destruct (from_config_dict_validates_first
                (test_configuration.test_config (VStr "NotAnImpl"))
                test_configuration.T_CLASS_SET []
                (Unknown_implementation "NotAnImpl"
                   (list_to_set (keys_of test_configuration.T_CLASS_SET)))
                test_configuration.st0) as (H1 & H2 & _).
    + left. apply resolve_unknown_implementation; [reflexivity|by_computation..].
    + split; [exact H1|exact H2].
  - destruct (from_config_dict_validates_first
                test_configuration.test_config_not_configurable
                test_configuration.test_class_set []
                (Assert_not_configurable "NotConfigurable")
                test_configuration.st0) as (H1 & H2 & _).
    + right. exists test_configuration.NotConfigurable, (VDict ∅).
      split_and!; reflexivity.
    + split; [exact H1|exact H2].
Defined.

(** C10 as stated fails when the error comes from a [from_config] that is
    already running.  [Composite] conforms and is resolved; its
    [from_config] resolves the nested block under [child], which has no
    ["type"]: [from_config_dict] raises the missing-type error of the
    resolution, and the trace, empty before, holds the call of
    [Composite.from_config]. *)
Lemma from_config_dict_nested_error_counterexample :
  cls_conf_from_config_dict Composite_config [Composite]
  = Return (Composite, Composite_block)
  ∧ cls_is_configurable Composite = true
  ∧ (from_config_dict Composite_config [Composite] [] test_configuration.st0).2
    = Raise Missing_type
  ∧ trace (from_config_dict Composite_config [Composite] []
             test_configuration.st0).1
    = [Call_from_config "tests.test_configuration.Composite" Composite_block []]
  ∧ trace test_configuration.st0 = [].
Proof. split_and!; reflexivity. Qed.

(** ** [merge_dict] and [Configurable.from_config] *)

Lemma merge_dict_lookup (a b : dict) (k : string) :
  merge_dict a b !! k
  = match a !! k, b !! k with
    | Some (VDict x), Some (VDict y) => Some (VDict (merge_dict x y))
    | _, Some v => Some v
    | o, None => o
    end.
Proof.
  unfold merge_dict. rewrite lookup_union_with.
  destruct (a !! k) as [[]|], (b !! k) as [[]|]; done.
Qed.

Lemma from_config_merge (cls : class_core) (dflt config : dict)
    (args : list value) (st : St) :
  args = [] ∨ (∃ m, args = [m] ∧ truthy m = true) →
  Configurable.from_config cls (Return dflt) (VDict config) args st
  = match construct cls (merge_dict dflt config) st with
    | (st', Return inst) => (st', Return (VDict config, inst))
    | (st', Raise e) => (st', Raise e)
    end.
Proof.
  intros Hargs. unfold Configurable.from_config.
  erewrite (bind_Return _ _ st st true).
  2:{ by destruct Hargs as [->|(m & -> & Hm)]; [|simpl; rewrite Hm]. }
  erewrite bind_Return; [|done].
  unfold mbind, M_bind, bind.
  destruct (construct cls _ st) as [st' [inst|e]]; done.
Qed.

Lemma from_config_no_merge (cls : class_core) (dflt : outcome dict)
    (config : dict) (m : value) (st : St) :
  truthy m = false →
  Configurable.from_config cls dflt (VDict config) [m] st
  = match construct cls config st with
    | (st', Return inst) => (st', Return (VDict config, inst))
    | (st', Raise e) => (st', Raise e)
    end.
Proof.
  intros Hm. unfold Configurable.from_config.
  erewrite (bind_Return _ _ st st false); [|by simpl; rewrite Hm].
  erewrite bind_Return; [|done].
  unfold mbind, M_bind, bind.
  destruct (construct cls _ st) as [st' [inst|e]]; done.
Qed.

Lemma construct_run (cls : class_core) (kwargs : dict) (st : St) :
  construct cls kwargs st
  = cls_call cls kwargs
      (mkSt (next_oid st) (trace st ++ [Call_init (_type_to_key cls) kwargs])).
Proof. done. Qed.



(** ** Round trips *)

(** The flat case: every instance of [T1] round-trips, whatever [foo] and
    [bar] hold. *)
Lemma round_trip_T1 (oid : nat) (foo bar : value) (st : St) :
  let c := VDict (<["bar" := bar]> (<["foo" := foo]> ∅)) in
  (round_trip test_configuration.T1
     (VInst oid 1 (<["bar" := bar]> (<["foo" := foo]> ∅))) st).2
  = Return (c, c, c).
Proof. reflexivity. Qed.

(** The nested case with the override written as the docstring prescribes:
    the three configurations are one and the same. *)
Lemma round_trip_T2_documented (oid child_oid : nat)
    (foo bar alpha beta : value) (st : St) :
  let c := VDict (<["beta" := beta]> (<["alpha" := alpha]>
             (<["child" := VDict (<["bar" := bar]> (<["foo" := foo]> ∅))]> ∅))) in
  (round_trip test_configuration.T2_documented
     (test_configuration.T2_instance oid child_oid foo bar alpha beta) st).2
  = Return (c, c, c).
Proof. reflexivity. Qed.

(** Two dictionaries that differ under one key are not equal. *)
Lemma py_eq_dict_differs (da db : dict) (k : string) (va vb : value) :
  da !! k = Some va → db !! k = Some vb → py_eq va vb = false →
  py_eq (VDict da) (VDict db) = false.
Proof.
  intros Ha Hb Hne. simpl. apply andb_false_intro2.
  revert Ha. apply (map_fold_weak_ind (λ r m, m !! k = Some va → r = false)).
  - by rewrite lookup_empty.
  - intros i x m r Hi IH Hk.
    destruct (decide (i = k)) as [->|Hik].
    + rewrite lookup_insert_eq in Hk. simplify_eq. rewrite Hb, Hne.
      apply andb_false_r.
    + rewrite lookup_insert_ne in Hk by done. by rewrite IH.
Qed.

(** C1, on the nested class [T2] of the tests.  [T2.from_config] assigns the
    rebuilt child into the dictionary it was given, so after each rebuild the
    configuration it was built from holds a [T1] instance under [child],
    where a freshly exported configuration holds a dictionary: for every
    instance of [T2] with a [T1] child, neither [c1 == c2] nor [c3 == c2]
    holds once the chain has run. *)
Theorem round_trip_T2_mutates_config (oid child_oid : nat)
    (foo bar alpha beta : value) (st : St) :
  ∃ c1 c2 c3 child,
    (round_trip test_configuration.T2
       (test_configuration.T2_instance oid child_oid foo bar alpha beta) st).2
    = Return (VDict c1, VDict c2, VDict c3)
    ∧ c1 !! "child" = Some (VInst (next_oid st) 1 child)
    ∧ c2 !! "child" = Some (VInst (S (S (next_oid st))) 1 child)
    ∧ c3 !! "child" = Some (VDict child)
    ∧ py_eq (VDict c1) (VDict c2) = false
    ∧ py_eq (VDict c3) (VDict c2) = false.
Proof.
  eexists _, _, _, _. split; [reflexivity|].
  split; [reflexivity|]. split; [reflexivity|]. split; [reflexivity|].
  split.
  - eapply (py_eq_dict_differs _ _ "child"); [reflexivity..|].
    simpl. apply Nat.eqb_neq. lia.
  - eapply (py_eq_dict_differs _ _ "child"); reflexivity.
Qed.

(** The instance [i3] of the tests is a case in point. *)
Lemma round_trip_i3 :
  ∃ c1 c2 c3,
    (round_trip test_configuration.T2 test_configuration.i3
       test_configuration.st_i3).2 = Return (c1, c2, c3)
    ∧ py_eq c1 c2 = false ∧ py_eq c3 c2 = false.
Proof. eexists _, _, _. split; [reflexivity|]. split; by vm_compute. Qed.

(** * Further properties of the module *)

Import test_configuration.

(** ** The default dictionary and the resolution *)

Lemma last_filter_position {A} (P : A → Prop) `{∀ x, Decision (P x)}
    (l : list A) (x : A) :
  last (filter P l) = Some x ↔
  ∃ i, l !! i = Some x ∧ P x
       ∧ ∀ j y, (i < j)%nat → l !! j = Some y → ¬ P y.
Proof.
  induction l as [|y l IH] using rev_ind.
  { split; [done|]. by intros (i & Hi & _). }
  rewrite filter_app, filter_cons, filter_nil. case_decide as Hy.
  - rewrite last_snoc. split.
    + intros [= ->]. exists (length l). split; [by rewrite list_lookup_middle|].
      split; [done|]. intros j z Hj Hz. apply lookup_lt_Some in Hz.
      rewrite length_app in Hz. simpl in Hz. lia.
    + intros (i & Hi & Hx & Hlater).
      destruct (decide (i < length l)%nat) as [Hlt|Hge].
      * exfalso. apply (Hlater (length l) y); [done| |done].
        by rewrite list_lookup_middle.
      * rewrite lookup_app_r in Hi by lia.
        destruct (i - length l)%nat; by simplify_eq/=.
  - rewrite app_nil_r, IH. split.
    + intros (i & Hi & Hx & Hlater). exists i.
      split; [by apply lookup_app_l_Some|]. split; [done|].
      intros j z Hj Hz. apply lookup_app_Some in Hz as [Hz|[_ Hz]].
      * by apply (Hlater j).
      * destruct (j - length l)%nat; by simplify_eq/=.
    + intros (i & Hi & Hx & Hlater). exists i.
      apply lookup_app_Some in Hi as [Hi|[_ Hi]].
      * split; [done|]. split; [done|]. intros j z Hj Hz.
        apply (Hlater j); [done|]. by apply lookup_app_l_Some.
      * destruct (i - length l)%nat; by simplify_eq/=.
Qed.

Lemma make_default_config_loop_returns (d0 d : dict) (cs : list class) :
  make_default_config_loop d0 (Class <$> cs) = Return d →
  ∃ dflts, Forall2 has_default cs dflts.
Proof.
  revert d0. induction cs as [|c cs IH]; intros d0 Hrun.
  { exists []. constructor. }
  simpl in Hrun.
  destruct (cls_is_configurable c) eqn:Hc; [|done].
  destruct (get_default_config c) as [dflt|e] eqn:Hd; [|done].
  simpl in Hrun. destruct (IH _ Hrun) as [dflts Hall].
  exists (dflt :: dflts). by constructor.
Qed.

Lemma make_default_config_returns (cs : list class) (d : dict) :
  make_default_config (Class <$> cs) = Return d →
  ∃ dflts, Forall2 has_default cs dflts
    ∧ d !! "type" = Some VNone
    ∧ dom d = {[ "type" ]} ∪ list_to_set (keys_of cs)
    ∧ ∀ i (c : class) dflt,
        cs !! i = Some c → dflts !! i = Some dflt →
        (∀ j (c' : class), (i < j)%nat → cs !! j = Some c' →
                           _type_to_key c' ≠ _type_to_key c) →
        d !! _type_to_key c = Some (VDict dflt).
Proof.
  intros Hrun. unfold make_default_config in Hrun.
  destruct (make_default_config_loop_returns _ _ _ Hrun) as [dflts Hall].
  exists dflts. split; [done|].
  destruct (make_default_config_loop_accept {[ "type" := VNone ]} cs dflts Hall)
    as (d' & Hrun' & Htype & Hdom & Hget & _).
  rewrite Hrun in Hrun'. injection Hrun' as <-.
  split; [by rewrite Htype, lookup_singleton_eq|].
  split; [by rewrite Hdom, dom_singleton_L|]. done.
Qed.

Lemma keys_not_type (cs : list class) : "type" ∉ keys_of cs.
Proof.
  intros Hin. apply list_elem_of_fmap in Hin as (c & Hc & _).
  symmetry in Hc. by apply _type_to_key_not_type in Hc.
Qed.

Lemma default_options (cs : list class) (d : dict) :
  dom d = {[ "type" ]} ∪ list_to_set (keys_of cs) →
  dom d ∖ {[ "type" ]} = list_to_set (keys_of cs).
Proof.
  intros ->. pose proof (keys_not_type cs) as Hn.
  apply set_eq. intros k. rewrite elem_of_difference, elem_of_union,
    elem_of_singleton, elem_of_list_to_set.
  split; [naive_solver|]. intros Hk. split; [by right|]. by intros ->.
Qed.

(** X2. A dictionary made by [make_default_config] selects nothing:
    whatever the candidates offered, resolving it raises the unset-type error
    whose options are exactly the identifiers of the classes it was made
    from, and [from_config_dict] raises it without constructing anything. *)
Theorem default_config_selects_nothing (cs type_iter : list class) (d : dict)
    (args : list value) (st : St) :
  make_default_config (Class <$> cs) = Return d →
  cls_conf_from_config_dict d type_iter
  = Raise (Unset_type (list_to_set (keys_of cs)))
  ∧ from_config_dict d type_iter args st
    = (st, Raise (Unset_type (list_to_set (keys_of cs)))).
Proof.
  intros Hrun.
  destruct (make_default_config_returns _ _ Hrun) as (dflts & _ & Htype & Hdom & _).
  assert (cls_conf_from_config_dict d type_iter
          = Raise (Unset_type (list_to_set (keys_of cs)))) as Hres.
  { rewrite (resolve_unset_type _ _ Htype). by rewrite (default_options cs). }
  split; [done|]. by apply from_config_dict_unresolved.
Qed.

(** X3. Choosing an identifier in a dictionary made by
    [make_default_config] resolves, against the same candidates, to a class
    of that identifier together with the default configuration of that very
    class, also when several candidates share the identifier. *)
Theorem default_config_with_choice (cs : list class) (d : dict) (k : string) :
  make_default_config (Class <$> cs) = Return d →
  k ∈ keys_of cs →
  ∃ (c : class) dflt,
    last (candidates_named k cs) = Some c
    ∧ get_default_config c = Return dflt
    ∧ cls_conf_from_config_dict (<["type" := VStr k]> d) cs
      = Return (c, VDict dflt).
Proof.
  intros Hrun Hk.
  destruct (make_default_config_returns _ _ Hrun)
    as (dflts & Hall & Htype & Hdom & Hget).
  assert (k ≠ "type") as Hkt.
  { intros ->. by apply keys_not_type in Hk. }
  assert (k ∈ dom (<["type" := VStr k]> d) ∖ {[ "type" ]}) as Hopt.
  { rewrite dom_insert_L, Hdom. rewrite elem_of_difference, !elem_of_union,
      elem_of_singleton, elem_of_list_to_set. naive_solver. }
  destruct (resolve_found (<["type" := VStr k]> d) cs k) as (c & conf & Hres & Hlast & Hconf);
    [by rewrite lookup_insert_eq|done|done|].
  rewrite lookup_insert_ne in Hconf by done.
  pose proof Hlast as Hpos. unfold candidates_named in Hpos.
  apply last_filter_position in Hpos as (i & Hi & <- & Hlater).
  destruct (Forall2_lookup_l _ _ _ _ _ Hall Hi) as (dflt & Hdi & _ & Hdflt).
  exists c, dflt. split; [done|]. split; [done|].
  rewrite Hres. repeat f_equal.
  rewrite (Hget i c dflt Hi Hdi) in Hconf; [by simplify_eq|].
  intros j c' Hj Hc'. by apply (Hlater j).
Qed.

Lemma default_config_selects_nothing_witness :
  cls_conf_from_config_dict T_default_config [T2]
  = Raise (Unset_type (list_to_set (keys_of T_CLASS_SET)))
  ∧ from_config_dict T_default_config [T2] [] st0
    = (st0, Raise (Unset_type (list_to_set (keys_of T_CLASS_SET)))).
Proof.
  apply (default_config_selects_nothing T_CLASS_SET [T2] T_default_config [] st0).
  reflexivity.
Defined.

Lemma default_config_with_choice_witness :
  ∃ (c : class) dflt,
    last (candidates_named "tests.test_configuration.T1" T_CLASS_SET) = Some c
    ∧ get_default_config c = Return dflt
    ∧ cls_conf_from_config_dict
        (<["type" := VStr "tests.test_configuration.T1"]> T_default_config)
        T_CLASS_SET
      = Return (c, VDict dflt).
Proof.
  apply (default_config_with_choice T_CLASS_SET T_default_config
           "tests.test_configuration.T1").
  - reflexivity.
  - by_computation.
Defined.

(** ** Candidate sets *)

Lemma candidates_named_unique (type_iter : list class) (k : string) :
  NoDup (keys_of type_iter) → (length (candidates_named k type_iter) ≤ 1)%nat.
Proof.
  unfold keys_of, candidates_named.
  induction type_iter as [|t l IH]; intros Hnd; [simpl; lia|].
  rewrite fmap_cons in Hnd. apply NoDup_cons in Hnd as [Hfresh Hnd].
  rewrite filter_cons. case_decide as Ht; [|by apply IH].
  assert (filter (λ t : class, _type_to_key t = k) l = []) as ->; [|simpl; lia].
  destruct (filter _ l) as [|c l'] eqn:Hf; [done|]. exfalso.
  assert (c ∈ filter (λ t : class, _type_to_key t = k) l) as Hc by (rewrite Hf; left).
  apply list_elem_of_filter in Hc as [Hck Hc]. apply Hfresh.
  rewrite Ht, <-Hck. by apply (list_elem_of_fmap_2 (λ t : class, _type_to_key t)).
Qed.

Lemma make_type_map_Permutation (l1 l2 : list class) :
  l1 ≡ₚ l2 → NoDup (keys_of l1) → make_type_map l1 = make_type_map l2.
Proof.
  intros Hp Hnd. apply map_eq. intros k. rewrite !make_type_map_lookup.
  assert (NoDup (keys_of l2)) as Hnd2 by (unfold keys_of in *; by rewrite <-Hp).
  pose proof (candidates_named_unique l1 k Hnd) as H1.
  pose proof (candidates_named_unique l2 k Hnd2) as H2.
  assert (candidates_named k l1 ≡ₚ candidates_named k l2) as Hf.
  { unfold candidates_named. by rewrite Hp. }
  destruct (candidates_named k l1) as [|a [|? ?]], (candidates_named k l2) as [|b [|? ?]];
    simpl in *; try lia; try done.
  - by apply Permutation_nil_cons in Hf.
  - symmetry in Hf. by apply Permutation_nil_cons in Hf.
  - by apply Permutation_singleton_inj in Hf as ->.
Qed.

(** X5. The candidates form a set: with distinct identifiers, the order in
    which the iterable yields them changes neither the resolution nor what
    [from_config_dict] does. *)
Theorem cls_conf_from_config_dict_unordered (config : dict) (l1 l2 : list class) :
  l1 ≡ₚ l2 → NoDup (keys_of l1) →
  cls_conf_from_config_dict config l1 = cls_conf_from_config_dict config l2
  ∧ ∀ args st, from_config_dict config l1 args st
               = from_config_dict config l2 args st.
Proof.
  intros Hp Hnd.
  assert (cls_conf_from_config_dict config l1
          = cls_conf_from_config_dict config l2) as Heq.
  { unfold cls_conf_from_config_dict.
    by rewrite (make_type_map_Permutation l1 l2). }
  split; [done|]. intros args st. unfold from_config_dict. by rewrite Heq.
Qed.

Lemma cls_conf_from_config_dict_unordered_witness :
  cls_conf_from_config_dict (test_config (VStr "tests.test_configuration.T2"))
    [T1; T2]
  = cls_conf_from_config_dict (test_config (VStr "tests.test_configuration.T2"))
      [T2; T1].
Proof.
  apply (cls_conf_from_config_dict_unordered
           (test_config (VStr "tests.test_configuration.T2")) [T1; T2] [T2; T1]).
  - apply Permutation_swap.
  - by_computation.
Defined.

Lemma has_default_Forall2 (cs : list class) :
  Forall (λ c, ∃ dflt, has_default c dflt) cs →
  ∃ dflts, Forall2 has_default cs dflts.
Proof.
  induction 1 as [|c cs [dflt Hc] _ [dflts IH]].
  - exists []. constructor.
  - exists (dflt :: dflts). by constructor.
Qed.

Lemma distinct_keys_later (cs : list class) (i j : nat) (c c' : class) :
  NoDup (keys_of cs) → cs !! i = Some c → cs !! j = Some c' → i ≠ j →
  _type_to_key c' ≠ _type_to_key c.
Proof.
  intros Hnd Hi Hj Hij Heq. apply Hij.
  apply (NoDup_lookup _ i j (_type_to_key c) Hnd); unfold keys_of.
  - by rewrite list_lookup_fmap, Hi.
  - rewrite list_lookup_fmap, Hj. simpl. by rewrite Heq.
Qed.

(** With distinct identifiers the result holds, for each candidate, the
    default configuration of that candidate. *)
Lemma make_default_config_lookup (cs : list class) (d : dict) (c : class) dflt :
  make_default_config (Class <$> cs) = Return d → NoDup (keys_of cs) →
  c ∈ cs → get_default_config c = Return dflt →
  d !! _type_to_key c = Some (VDict dflt).
Proof.
  intros Hrun Hnd Hc Hd.
  destruct (make_default_config_returns _ _ Hrun) as (dflts & Hall & _ & _ & Hget).
  apply list_elem_of_lookup in Hc as [i Hi].
  destruct (Forall2_lookup_l _ _ _ _ _ Hall Hi) as (dflt' & Hdi & _ & Hdflt).
  rewrite Hd in Hdflt. injection Hdflt as <-.
  apply (Hget i); [done..|]. intros j c' Hij Hj.
  apply (distinct_keys_later cs i j); [done..|lia].
Qed.

(** X6. With distinct identifiers the dictionary that
    [make_default_config] returns does not depend on the order in which the
    iterable yields the candidates. *)
Theorem make_default_config_unordered (cs1 cs2 : list class) (d : dict) :
  cs1 ≡ₚ cs2 → NoDup (keys_of cs1) →
  make_default_config (Class <$> cs1) = Return d →
  make_default_config (Class <$> cs2) = Return d.
Proof.
  intros Hp Hnd Hrun.
  assert (NoDup (keys_of cs2)) as Hnd2 by (unfold keys_of in *; by rewrite <-Hp).
  destruct (make_default_config_returns _ _ Hrun)
    as (dflts & Hall & Htype & Hdom & _).
  assert (Forall (λ c, ∃ dflt, has_default c dflt) cs2) as Hall2.
  { rewrite <-Hp. apply Forall_forall. intros c Hc.
    apply list_elem_of_lookup in Hc as [i Hi].
    destruct (Forall2_lookup_l _ _ _ _ _ Hall Hi) as (dflt & _ & Hd). by exists dflt. }
  apply has_default_Forall2 in Hall2 as [dflts2 Hall2].
  destruct (make_default_config_loop_accept {[ "type" := VNone ]} cs2 dflts2 Hall2)
    as (d2 & Hrun2 & Htype2 & Hdom2 & _).
  unfold make_default_config at 1. rewrite Hrun2. f_equal.
  apply map_eq. intros k.
  destruct (decide (k = "type")) as [->|Hk].
  { by rewrite Htype2, Htype, lookup_singleton_eq. }
  destruct (decide (k ∈ keys_of cs1)) as [Hin|Hout].
  - apply list_elem_of_fmap in Hin as (c & -> & Hc).
    assert (c ∈ cs2) as Hc2 by by rewrite <-Hp.
    apply list_elem_of_lookup in Hc as [i Hi].
    destruct (Forall2_lookup_l _ _ _ _ _ Hall Hi) as (dflt & _ & _ & Hd).
    rewrite (make_default_config_lookup cs1 d c dflt); [|done..|by eapply list_elem_of_lookup_2|done].
    by rewrite (make_default_config_lookup cs2 d2 c dflt).
  - assert (k ∉ dom d) as H1.
    { rewrite Hdom. rewrite elem_of_union, elem_of_singleton, elem_of_list_to_set.
      naive_solver. }
    assert (k ∉ dom d2) as H2.
    { rewrite Hdom2, dom_singleton_L.
      rewrite elem_of_union, elem_of_singleton, elem_of_list_to_set.
      unfold keys_of in *. rewrite <-Hp. naive_solver. }
    apply not_elem_of_dom in H1, H2. by rewrite H1, H2.
Qed.

Lemma make_default_config_unordered_witness :
  make_default_config [Class T2; Class T1] = Return T_default_config.
Proof.
  apply (make_default_config_unordered [T1; T2] [T2; T1] T_default_config).
  - apply Permutation_swap.
  - by_computation.
  - reflexivity.
Defined.

(** ** Composing and resolving standard dictionaries *)

Lemma resolve_standard_last (type_iter : list class) (c : class) (conf : value) :
  last (candidates_named (_type_to_key c) type_iter) = Some c →
  cls_conf_from_config_dict (cls_conf_to_config_dict c conf) type_iter
  = Return (c, conf).
Proof.
  destruct (cls_conf_to_config_dict_lookup c conf) as (Htype & Hkey & Hdom).
  intros Hlast. unfold cls_conf_from_config_dict. rewrite Htype.
  rewrite bool_decide_eq_false_2.
  - by rewrite make_type_map_lookup, Hlast, Hkey.
  - intros Hn. apply Hn. rewrite Hdom.
    pose proof (_type_to_key_not_type c). set_solver.
Qed.

(** X1. [cls_conf_to_config_dict] and [cls_conf_from_config_dict] are
    inverse to each other: the dictionary composed from a class and a
    configuration resolves to that class and that configuration when the
    class is the last candidate of its identifier, and to the
    unknown-implementation error when no candidate has its identifier. *)
Theorem cls_conf_round_trip (type_iter : list class) (c : class) (conf : value) :
  (last (candidates_named (_type_to_key c) type_iter) = Some c →
   cls_conf_from_config_dict (cls_conf_to_config_dict c conf) type_iter
   = Return (c, conf))
  ∧ (_type_to_key c ∉ keys_of type_iter →
     cls_conf_from_config_dict (cls_conf_to_config_dict c conf) type_iter
     = Raise (Unknown_implementation (_type_to_key c)
                (list_to_set (keys_of type_iter)))).
Proof.
  split; [apply resolve_standard_last|].
  destruct (cls_conf_to_config_dict_lookup c conf) as (Htype & Hkey & Hdom).
  intros Hnot. apply resolve_unknown_implementation; [done| |done].
  rewrite Hdom. pose proof (_type_to_key_not_type c). set_solver.
Qed.

(** X7. What [to_config_dict] exports of an instance, [from_config_dict]
    hands to the [from_config] of the instance's class: the configuration
    that [get_config] returned, with the extra arguments. *)
Theorem export_then_construct (type_iter : list class) (c : class)
    (self : value) (d : dict) :
  to_config_dict (Instance c self) = Return d →
  last (candidates_named (_type_to_key c) type_iter) = Some c →
  ∃ conf, get_config c self = Return conf
    ∧ ∀ args st,
        from_config_dict d type_iter args st
        = match from_config c conf args
                  (mkSt (next_oid st)
                     (trace st ++ [Call_from_config (_type_to_key c) conf args]))
          with
          | (st', Return (conf', inst)) =>
              (st', Return (<[_type_to_key c := conf']> d, inst))
          | (st', Raise e) => (st', Raise e)
          end.
Proof.
  simpl. destruct (cls_is_configurable c) eqn:Hc; [|done]. simpl.
  destruct (get_config c self) as [conf|e]; [|done]. simpl.
  intros [= <-] Hlast. exists conf. split; [done|]. intros args st.
  rewrite (from_config_dict_resolved _ _ _ c conf); [by rewrite Hc|].
  by apply resolve_standard_last.
Qed.

Lemma bind_Return_inv {A B} (m : M A) (k : A → M B) st st' b :
  (m ≫= k) st = (st', Return b) →
  ∃ a st1, m st = (st1, Return a) ∧ k a st1 = (st', Return b).
Proof.
  unfold mbind, M_bind, bind. destruct (m st) as [st1 [a|e]]; [|done].
  intros Hk. by exists a, st1.
Qed.

Lemma base_from_config_keeps_config (cls : class_core) (g : outcome dict)
    (conf conf' : value) (args : list value) (inst : value) (st st' : St) :
  Configurable.from_config cls g conf args st = (st', Return (conf', inst)) →
  conf' = conf.
Proof.
  unfold Configurable.from_config. intros Hrun.
  apply bind_Return_inv in Hrun as (md & st1 & _ & Hrun).
  apply bind_Return_inv in Hrun as (kwargs & st2 & _ & Hrun).
  apply bind_Return_inv in Hrun as (inst' & st3 & _ & Hrun).
  by injection Hrun as _ <- _.
Qed.


Lemma cls_conf_round_trip_witness :
  cls_conf_from_config_dict (cls_conf_to_config_dict T1 T1_block) T_CLASS_SET
  = Return (T1, T1_block)
  ∧ cls_conf_from_config_dict (cls_conf_to_config_dict NotConfigurable (VDict ∅))
      T_CLASS_SET
    = Raise (Unknown_implementation "tests.test_configuration.NotConfigurable"
               (list_to_set (keys_of T_CLASS_SET))).
Proof.
  split.
  - apply (cls_conf_round_trip T_CLASS_SET T1 T1_block). reflexivity.
  - apply (cls_conf_round_trip T_CLASS_SET NotConfigurable (VDict ∅)).
    by_computation.
Defined.

Lemma export_then_construct_witness :
  ∃ conf, get_config T1 T1_default_instance = Return conf
    ∧ ∀ args st,
        from_config_dict
          (cls_conf_to_config_dict T1 (T1_config (VInt 1) (VStr "baz")))
          T_CLASS_SET args st
        = match from_config T1 conf args
                  (mkSt (next_oid st)
                     (trace st ++ [Call_from_config (_type_to_key T1) conf args]))
          with
          | (st', Return (conf', inst)) =>
              (st', Return (<[_type_to_key T1 := conf']>
                              (cls_conf_to_config_dict T1
                                 (T1_config (VInt 1) (VStr "baz"))), inst))
          | (st', Raise e) => (st', Raise e)
          end.
Proof.
  apply (export_then_construct T_CLASS_SET T1 T1_default_instance); reflexivity.
Defined.


(** ** Equality of values *)

Lemma value_size_lookup (d : dict) (k : string) (v : value) :
  d !! k = Some v →
  (value_size v ≤ map_fold (λ _ x acc, value_size x + acc)%nat 0%nat d)%nat.
Proof.
  intros Hk. rewrite <-(insert_delete_id d k v Hk).
  rewrite map_fold_insert_L.
  - lia.
  - intros. lia.
  - apply lookup_delete_eq.
Qed.

Lemma value_size_elem (l : list value) (v : value) :
  v ∈ l → (value_size v ≤ foldr (λ x acc, value_size x + acc)%nat 0%nat l)%nat.
Proof.
  induction 1 as [|? ? ? ? IH]; simpl; lia.
Qed.

Lemma number_eqb_refl (x : Z * Z) : number_eqb x x = true.
Proof. unfold number_eqb. apply Z.eqb_refl. Qed.

Lemma py_eq_refl (v : value) : py_eq v v = true.
Proof.
  remember (value_size v) as n eqn:Hn.
  revert v Hn. induction n as [n IH] using lt_wf_ind. intros v ->.
  destruct v as [|b|z|m e| s|l|d|oid cid attrs]; simpl;
    try done; try apply number_eqb_refl.
  - apply String.eqb_refl.
  - assert (∀ x, x ∈ l → py_eq x x = true) as Hl.
    { intros x Hx. apply (IH (value_size x)); [|done].
      apply value_size_elem in Hx. simpl. lia. }
    clear IH. induction l as [|x l IHl]; [done|].
    rewrite Hl by left. simpl. apply IHl. intros y Hy. apply Hl. by right.
  - rewrite bool_decide_eq_true_2 by done. simpl.
    assert (∀ k x, d !! k = Some x → py_eq x x = true) as Hd.
    { intros k x Hx. apply (IH (value_size x)); [|done].
      apply value_size_lookup in Hx. simpl. lia. }
    clear IH.
    assert (∀ m : dict, (∀ k x, m !! k = Some x → d !! k = Some x) →
              map_fold (λ k va acc,
                         acc && match d !! k with
                                | Some vb => py_eq va vb
                                | None => false
                                end) true m = true) as Hfold.
    { intros m.
      apply (map_fold_weak_ind
               (λ r m, (∀ k x, m !! k = Some x → d !! k = Some x) → r = true)).
      - done.
      - intros i x m' r Hi IHm Hsub. rewrite IHm.
        + simpl. rewrite (Hsub i x) by apply lookup_insert_eq.
          apply (Hd i). apply Hsub, lookup_insert_eq.
        + intros k y Hk. apply Hsub. rewrite lookup_insert_ne; [done|].
          intros ->. by rewrite Hi in Hk. }
    by apply Hfold.
  - apply Nat.eqb_refl.
Qed.

(** ** The test classes and [configuration_test_helper] *)

Lemma H_bind_Passed {A B} (m : H A) (k : A → H B) st st1 a :
  m st = (st1, Passed a) → (m ≫= k) st = k a st1.
Proof. intros Hm. unfold mbind, H_bind. by rewrite Hm. Qed.

Lemma H_bind_Failed {A B} (m : H A) (k : A → H B) st st1 e :
  m st = (st1, Failed e) → (m ≫= k) st = (st1, Failed e).
Proof. intros Hm. unfold mbind, H_bind. by rewrite Hm. Qed.

Lemma run_Return {A} (m : M A) st st1 a :
  m st = (st1, Return a) → run m st = (st1, Passed a).
Proof. intros Hm. unfold run. by rewrite Hm. Qed.

Lemma run_Raise {A} (m : M A) st st1 e :
  m st = (st1, Raise e) → run m st = (st1, Failed (Raised e)).
Proof. intros Hm. unfold run. by rewrite Hm. Qed.

Lemma T1_from_config_config (foo bar : value) (st : St) :
  ∃ tr, call_from_config T1 (T1_config foo bar) [] st
        = (mkSt (S (next_oid st)) tr,
           Return (T1_config foo bar, T1_instance (next_oid st) foo bar)).
Proof. destruct st as [n tr]. eexists. reflexivity. Qed.

(** X10. [configuration_test_helper] passes on every instance of the flat
    class [T1], whatever its [foo] and [bar] hold, and returns three new
    instances with the same attributes. *)
Theorem configuration_test_helper_T1 (oid : nat) (foo bar : value) (st : St) :
  (configuration_test_helper (Instance T1 (T1_instance oid foo bar)) ∅ [] st).2
  = Passed (T1_instance (next_oid st) foo bar,
            T1_instance (S (next_oid st)) foo bar,
            T1_instance (S (S (next_oid st))) foo bar).
Proof.
  unfold configuration_test_helper.
  erewrite H_bind_Passed; [|reflexivity].
  erewrite H_bind_Passed; [|by vm_compute].
  erewrite H_bind_Passed; [|by vm_compute].
  erewrite H_bind_Passed; [|reflexivity].
  erewrite H_bind_Passed; [|reflexivity].
  erewrite H_bind_Passed; [|by vm_compute].
  destruct (T1_from_config_config foo bar st) as [tr1 H1].
  erewrite H_bind_Passed; [|by apply run_Return]. cbv beta iota.
  erewrite (H_bind_Passed (run (lift _))); [|reflexivity].
  destruct (T1_from_config_config foo bar (mkSt (S (next_oid st)) tr1)) as [tr2 H2].
  erewrite H_bind_Passed; [|by apply run_Return]. cbv beta iota.
  erewrite (H_bind_Passed (run (lift _))); [|reflexivity].
  destruct (T1_from_config_config foo bar (mkSt (S (S (next_oid st))) tr2)) as [tr3 H3].
  erewrite H_bind_Passed; [|by apply run_Return]. cbv beta iota.
  erewrite (H_bind_Passed (run (lift _))); [|reflexivity].
  rewrite !py_eq_refl. reflexivity.
Qed.

Lemma T2_get_config_instance oid child_oid foo bar alpha beta :
  get_config T2 (T2_instance oid child_oid foo bar alpha beta)
  = Return (T2_config (T1_config foo bar) alpha beta).
Proof. reflexivity. Qed.

(** [T2.from_config] on an exported configuration: the caller's dictionary
    comes back with the new child in the place of the child's block. *)
Lemma T2_from_config_config (foo bar alpha beta : value) (st : St) :
  ∃ st1, call_from_config T2 (T2_config (T1_config foo bar) alpha beta) [] st
         = (st1,
            Return (T2_config (T1_instance (next_oid st) foo bar) alpha beta,
                    T2_instance (S (next_oid st)) (next_oid st) foo bar alpha beta))
         ∧ next_oid st1 = S (S (next_oid st)).
Proof.
  exists (call_from_config T2 (T2_config (T1_config foo bar) alpha beta) [] st).1.
  split; [|reflexivity]. by apply injective_projections.
Qed.

(** On the dictionary so left, [T2.from_config] fails: the child it hands to
    [T1.from_config] is no mapping. *)
Lemma T2_from_config_again (oid : nat) (foo bar alpha beta : value) (st : St) :
  ∃ st1, call_from_config T2 (T2_config (T1_instance oid foo bar) alpha beta) [] st
         = (st1, Raise (TypeError "mapping required"))
         ∧ next_oid st1 = next_oid st.
Proof.
  exists (call_from_config T2 (T2_config (T1_instance oid foo bar) alpha beta) [] st).1.
  split; [|reflexivity]. by apply injective_projections.
Qed.

(** X11. On every instance of the nested class [T2],
    [configuration_test_helper] does not reach its comparisons: the second
    construction from [inst_config] raises a [TypeError], for the first one
    has left a [T1] instance where the child's block was. *)
Theorem configuration_test_helper_T2 (oid child_oid : nat)
    (foo bar alpha beta : value) (st : St) :
  ∃ st', configuration_test_helper
           (Instance T2 (T2_instance oid child_oid foo bar alpha beta)) ∅ [] st
         = (st', Failed (Raised (TypeError "mapping required")))
         ∧ next_oid st' = S (S (next_oid st)).
Proof.
  unfold configuration_test_helper.
  destruct (T2_from_config_config foo bar alpha beta st) as (st1 & H1 & Hn1).
  destruct (T2_from_config_again (next_oid st) foo bar alpha beta st1)
    as (st2 & H2 & Hn2).
  exists st2. split; [|congruence].
  erewrite H_bind_Passed; [|reflexivity].
  erewrite H_bind_Passed; [|by vm_compute].
  erewrite H_bind_Passed; [|by vm_compute].
  erewrite H_bind_Passed; [|reflexivity].
  erewrite H_bind_Passed; [|reflexivity].
  erewrite H_bind_Passed; [|by vm_compute].
  erewrite H_bind_Passed; [|by apply run_Return]. cbv beta iota.
  erewrite (H_bind_Passed (run (lift _))); [|reflexivity].
  erewrite H_bind_Failed; [reflexivity|]. by apply run_Raise.
Qed.

Lemma resolve_last (config : dict) (type_iter : list class) (c : class)
    (conf : value) :
  config !! "type" = Some (VStr (_type_to_key c)) →
  config !! _type_to_key c = Some conf →
  last (candidates_named (_type_to_key c) type_iter) = Some c →
  cls_conf_from_config_dict config type_iter = Return (c, conf).
Proof.
  intros Htype Hconf Hlast. unfold cls_conf_from_config_dict. rewrite Htype.
  rewrite bool_decide_eq_false_2.
  - by rewrite make_type_map_lookup, Hlast, Hconf.
  - intros Hn. apply Hn. apply elem_of_difference. split; [by apply elem_of_dom|].
    rewrite elem_of_singleton. apply _type_to_key_not_type.
Qed.

Lemma from_config_dict_call (config : dict) (type_iter : list class)
    (args : list value) (cls : class) (conf : value) (st : St) :
  cls_conf_from_config_dict config type_iter = Return (cls, conf) →
  cls_is_configurable cls = true →
  from_config_dict config type_iter args st
  = match call_from_config cls conf args st with
    | (st', Return (conf', inst)) =>
        (st', Return (<[_type_to_key cls := conf']> config, inst))
    | (st', Raise e) => (st', Raise e)
    end.
Proof.
  intros Hres Hc. by rewrite (from_config_dict_resolved _ _ _ _ _ _ Hres), Hc.
Qed.



(** X15. The standard dictionary exported from an instance of [T1] builds,
    through [from_config_dict], an instance with the same attributes, is left
    unchanged by the construction, and is what the new instance exports in
    turn. *)
Theorem T1_standard_round_trip (type_iter : list class) (oid : nat)
    (foo bar : value) (st : St) :
  last (candidates_named "tests.test_configuration.T1" type_iter) = Some T1 →
  ∃ d st',
    to_config_dict (Instance T1 (T1_instance oid foo bar)) = Return d
    ∧ from_config_dict d type_iter [] st
      = (st', Return (d, T1_instance (next_oid st) foo bar))
    ∧ to_config_dict (Instance T1 (T1_instance (next_oid st) foo bar)) = Return d.
Proof.
  intros Hlast.
  destruct (T1_from_config_config foo bar st) as [tr H1].
  exists (cls_conf_to_config_dict T1 (T1_config foo bar)), (mkSt (S (next_oid st)) tr).
  split; [reflexivity|]. split; [|reflexivity].
  rewrite (from_config_dict_call _ _ _ T1 (T1_config foo bar)); [| |reflexivity].
  - rewrite H1. unfold cls_conf_to_config_dict. by rewrite insert_insert_eq.
  - by apply (resolve_standard_last type_iter T1).
Qed.

Lemma T1_standard_round_trip_witness :
  ∃ d st',
    to_config_dict (Instance T1 T1_default_instance) = Return d
    ∧ from_config_dict d T_CLASS_SET [] st0
      = (st', Return (d, T1_instance 1 (VInt 1) (VStr "baz")))
    ∧ to_config_dict (Instance T1 (T1_instance 1 (VInt 1) (VStr "baz"))) = Return d.
Proof.
  apply (T1_standard_round_trip T_CLASS_SET 0 (VInt 1) (VStr "baz") st0).
  reflexivity.
Defined.

Lemma H_bind_Passed_inv {A B} (m : H A) (k : A → H B) st st' b :
  (m ≫= k) st = (st', Passed b) →
  ∃ a st1, m st = (st1, Passed a) ∧ k a st1 = (st', Passed b).
Proof.
  unfold mbind, H_bind. destruct (m st) as [st1 [a|e]]; [|done].
  intros Hk. by exists a, st1.
Qed.

Lemma run_lift_Passed_inv {A} (o : outcome A) st st' a :
  run (lift o) st = (st', Passed a) → o = Return a ∧ st' = st.
Proof. unfold run, lift. destruct o; naive_solver. Qed.

Lemma check_Passed_inv (b : bool) (e : helper_error) st st' u :
  check b e st = (st', Passed u) → b = true ∧ st' = st.
Proof. destruct b; simpl; [|done]. by intros [= <-]. Qed.

Lemma _param_map_func_dom (sig : Signature) (k : string) :
  k ∈ dom (_param_map_func sig) ↔ ∃ p, p ∈ sig ∧ recorded p ∧ p_name p = k.
Proof.
  induction sig as [|p sig IH] using rev_ind.
  { split; [set_solver|]. intros (p & Hp & _). by apply elem_of_nil in Hp. }
  rewrite _param_map_func_snoc.
  assert ((∃ q, q ∈ (sig ++ [p])%list ∧ recorded q ∧ p_name q = k) ↔
          (∃ q, q ∈ sig ∧ recorded q ∧ p_name q = k) ∨ (recorded p ∧ p_name p = k))
    as ->.
  { split.
    - intros (q & Hq & ?). apply elem_of_app in Hq as [?|Hq]; [left; by exists q|].
      apply list_elem_of_singleton in Hq as ->. by right.
    - intros [(q & ? & ?)|?]; [exists q|exists p]; set_solver. }
  rewrite <-IH. unfold recorded.
  destruct (String.eqb_spec (p_name p) "self") as [Hself|Hself]; [naive_solver|].
  case_bool_decide as Hkind; rewrite keep_kinds_spec in Hkind.
  - rewrite dom_insert_L, elem_of_union, elem_of_singleton. naive_solver.
  - naive_solver.
Qed.

(** X12. When [configuration_test_helper] returns, the default
    configuration of the instance's class is JSON-serialisable, and the keys
    of the instance's configuration are those of the default configuration,
    which are exactly the names of the constructor's parameters that are
    neither [self] nor variadic nor among the ignored ones. *)
Theorem configuration_test_helper_passed (c : class) (self : value)
    (ignored : gset string) (args : list value) (st st' : St)
    (r : value * value * value) :
  configuration_test_helper (Instance c self) ignored args st = (st', Passed r) →
  ∃ dflt conf,
    get_default_config c = Return dflt
    ∧ get_config c self = Return conf
    ∧ json_serializable (VDict dflt) = true
    ∧ set_of conf = Return (Some (dom dflt))
    ∧ ∀ k, k ∈ dom dflt ↔
           k ∉ ignored ∧ ∃ p, p ∈ init_signature c ∧ p_name p = k
                              ∧ k ≠ "self"
                              ∧ p_kind p ≠ VAR_POSITIONAL ∧ p_kind p ≠ VAR_KEYWORD.
Proof.
  unfold configuration_test_helper. intros Hrun.
  apply H_bind_Passed_inv in Hrun as (dflt & st1 & Hd & Hrun).
  apply run_lift_Passed_inv in Hd as [Hd ->].
  apply H_bind_Passed_inv in Hrun as (? & st1 & Hkeys & Hrun).
  apply check_Passed_inv in Hkeys as [Hkeys ->].
  apply bool_decide_eq_true_1 in Hkeys.
  apply H_bind_Passed_inv in Hrun as (? & st1 & Hjson & Hrun).
  apply H_bind_Passed_inv in Hrun as (conf & st2 & Hc & Hrun).
  apply run_lift_Passed_inv in Hc as [Hc ->].
  apply H_bind_Passed_inv in Hrun as (keys & st2 & Hset & Hrun).
  apply run_lift_Passed_inv in Hset as [Hset ->].
  apply H_bind_Passed_inv in Hrun as (? & st2 & Hck & _).
  apply check_Passed_inv in Hck as [Hck ->].
  apply bool_decide_eq_true_1 in Hck as ->.
  exists dflt, conf. split; [done|]. split; [done|]. split.
  { unfold json_round_trip in Hjson.
    destruct (json_serializable (VDict dflt)); done. }
  split; [done|]. intros k.
  rewrite Hkeys, elem_of_difference, _param_map_func_dom. unfold recorded.
  split.
  - intros [(p & ? & ? & <-) ?]. split; [done|]. exists p. naive_solver.
  - intros [? (p & ? & <- & ?)]. split; [|done]. exists p. naive_solver.
Qed.

Lemma json_serializable_dict_instance (d : dict) (k : string) oid cid attrs :
  d !! k = Some (VInst oid cid attrs) → json_serializable (VDict d) = false.
Proof.
  simpl. revert k.
  apply (map_fold_weak_ind
           (λ r m, ∀ k, m !! k = Some (VInst oid cid attrs) → r = false)).
  - intros k. by rewrite lookup_empty.
  - intros i x m r Hi IH k Hk.
    destruct (decide (i = k)) as [->|Hik].
    + rewrite lookup_insert_eq in Hk. simplify_eq. simpl. apply andb_false_r.
    + rewrite lookup_insert_ne in Hk by done. by rewrite (IH k).
Qed.

(** X13. [configuration_test_helper] rejects, before it constructs
    anything, a class that keeps the inherited [get_default_config] while a
    constructor parameter has an instance for its default: the default
    configuration is then not serialisable. *)
Theorem configuration_test_helper_instance_default (c : class) (self : value)
    (sig : Signature) (p : Param) (oid cid : nat) (attrs : dict)
    (args : list value) (st : St) :
  cls_init c = Some sig →
  get_default_config c = Return (Configurable.get_default_config c) →
  NoDup (p_name <$> sig) →
  p ∈ sig → p_name p ≠ "self" →
  p_kind p ≠ VAR_POSITIONAL → p_kind p ≠ VAR_KEYWORD →
  p_default p = Some (VInst oid cid attrs) →
  configuration_test_helper (Instance c self) ∅ args st
  = (st, Failed (Assert_json_not_serializable (cls_name c))).
Proof.
  intros Hinit Hget Hnd Hp Hself Hvp Hvk Hdflt.
  unfold configuration_test_helper. rewrite Hget.
  erewrite H_bind_Passed; [|reflexivity].
  unfold init_signature, Configurable.get_default_config. rewrite Hinit.
  erewrite H_bind_Passed.
  2:{ unfold check. rewrite bool_decide_eq_true_2; [reflexivity|].
      by rewrite difference_empty_L. }
  erewrite H_bind_Failed; [reflexivity|].
  unfold json_round_trip.
  rewrite (json_serializable_dict_instance _ (p_name p) oid cid attrs); [done|].
  apply _param_map_func_lookup; [done|]. exists p. unfold recorded.
  rewrite Hdflt. done.
Qed.

Lemma _param_map_func_from (pmap : dict) (sig : list Param) :
  foldl (λ (pmap : dict) (param : Param),
           let k := p_name param in
           if String.eqb k "self" then pmap
           else if bool_decide (p_kind param ∈ keep_kinds) then
             let dflt := match p_default param with
                         | None => VNone
                         | Some dflt => dflt
                         end in
             <[k := dflt]> pmap
           else pmap) pmap (filter recorded sig)
  = foldl (λ (pmap : dict) (param : Param),
           let k := p_name param in
           if String.eqb k "self" then pmap
           else if bool_decide (p_kind param ∈ keep_kinds) then
             let dflt := match p_default param with
                         | None => VNone
                         | Some dflt => dflt
                         end in
             <[k := dflt]> pmap
           else pmap) pmap sig.
Proof.
  revert pmap. induction sig as [|p sig IH]; intros pmap; [done|].
  rewrite filter_cons. case_decide as Hp.
  - simpl. apply IH.
  - rewrite IH. simpl.
    destruct (String.eqb_spec (p_name p) "self") as [|Hself]; [done|].
    case_bool_decide as Hkind; [|done]. exfalso. apply Hp.
    apply keep_kinds_spec in Hkind. unfold recorded. naive_solver.
Qed.

(** X4. [_param_map_func] depends only on the parameters it records:
    parameters named [self] and variadic parameters, wherever they stand in
    the signature, leave the result unchanged. *)
Theorem _param_map_func_recorded_only (sig : list Param) :
  _param_map_func (filter recorded sig) = _param_map_func sig.
Proof. apply _param_map_func_from. Qed.

Lemma configuration_test_helper_passed_witness :
  ∃ dflt conf,
    get_default_config T1 = Return dflt
    ∧ get_config T1 T1_default_instance = Return conf
    ∧ json_serializable (VDict dflt) = true
    ∧ set_of conf = Return (Some (dom dflt))
    ∧ ∀ k, k ∈ dom dflt ↔
           k ∉ (∅ : gset string)
           ∧ ∃ p, p ∈ init_signature T1 ∧ p_name p = k
                  ∧ k ≠ "self"
                  ∧ p_kind p ≠ VAR_POSITIONAL ∧ p_kind p ≠ VAR_KEYWORD.
Proof.
  apply (configuration_test_helper_passed T1 T1_default_instance ∅ [] st0
           (configuration_test_helper (Instance T1 T1_default_instance) ∅ [] st0).1
           (T1_instance 1 (VInt 1) (VStr "baz"),
            T1_instance 2 (VInt 1) (VStr "baz"),
            T1_instance 3 (VInt 1) (VStr "baz"))).
  apply injective_projections; [reflexivity|]. by vm_compute.
Defined.

Lemma configuration_test_helper_instance_default_witness :
  configuration_test_helper (Instance T2_without_overrides i3) ∅ [] st_i3
  = (st_i3, Failed (Assert_json_not_serializable "T2")).
Proof.
  apply (configuration_test_helper_instance_default T2_without_overrides i3
           T2_init_sig
           (mkParam "child" POSITIONAL_OR_KEYWORD (Some T1_default_instance))
           0 1 (<["bar" := VStr "baz"]> (<["foo" := VInt 1]> ∅)) [] st_i3);
    try reflexivity; try done.
  - by_computation.
  - unfold T2_init_sig. set_solver.
Defined.

(** ** The default configuration in [from_config] *)

(** X14. The inherited [from_config] consults [get_default_config] only when
    [merge_default] is true: a failure of [get_default_config] then is the
    outcome and nothing is constructed, while with a false [merge_default]
    the outcome is the same whatever [get_default_config] would do. *)
Theorem from_config_default_config_use (cls : class_core) (conf : value)
    (e : error) (m : value) (g g' : outcome dict) (st : St) :
  Configurable.from_config cls (Raise e) conf [] st = (st, Raise e)
  ∧ (truthy m = false →
     Configurable.from_config cls g conf [m] st
     = Configurable.from_config cls g' conf [m] st).
Proof.
  split; [reflexivity|]. intros Hm. unfold Configurable.from_config.
  erewrite (bind_Return _ _ st st false); [|by simpl; rewrite Hm].
  by erewrite (bind_Return _ _ st st false); [|by simpl; rewrite Hm].
Qed.

Lemma from_config_default_config_use_witness :
  Configurable.from_config T1_core (Raise (KeyError "child")) T1_block
    [VInt 0] st0
  = Configurable.from_config T1_core (get_default_config T1) T1_block
      [VInt 0] st0.
Proof.
  apply (from_config_default_config_use T1_core T1_block Missing_type (VInt 0)).
  reflexivity.
Defined.
